(** * The AMQP transport authenticator of the IoT device SDK

    A shallow embedding of [c/iothub_client/src/iothubtransportamqp_auth.c]:
    the authenticator record, the status choke-point [update_status], the
    token lifecycle ([create_devices_path], [authenticate_device]), the CBS
    completions and the public operations [authentication_create],
    [authentication_start], [authentication_do_work], [authentication_stop]
    and [authentication_set_option].

    Conventions of the embedding:
    - a C pointer that may be [NULL] is an [option]; [None] is [NULL];
    - [size_t] values are [Z] and arithmetic on them wraps modulo [2^64];
    - [result = __LINE__] is the number of the source line it stands on;
    - everything the module calls but does not define (the clock, the
      allocator, the CBS client, the SAS token primitive) answers from an
      environment [Env]; what the module does to the outside (observer
      calls, CBS submissions, releases of memory) is appended to a trace;
    - memory obtained from [malloc] and locals read before being assigned
      hold whatever the caller of the model supplies for them;
    - [LogError] calls are left out, and so are the arguments that only
      feed them ([status_code], [status_description]);
    - observers and completions are calls recorded in the trace; they are
      not taken to call back into the module while it runs. *)

From Stdlib Require Import ZArith List String Bool Lia.
Import ListNotations.
Local Open Scope string_scope.
Local Open Scope list_scope.
Local Open Scope Z_scope.

(** ** Constants *)

Definition RESULT_OK : Z := 0.
Definition SAS_TOKEN_TYPE : string := "servicebus.windows.net:sastoken".
Definition SIZE_MAX_plus_1 : Z := 2 ^ 64.

(** [size_t] arithmetic. *)
Definition size_sub (a b : Z) : Z := (a - b) mod SIZE_MAX_plus_1.
Definition size_add (a b : Z) : Z := (a + b) mod SIZE_MAX_plus_1.
Definition size_mul (a b : Z) : Z := (a * b) mod SIZE_MAX_plus_1.

(** ** Types declared by the header *)

Inductive AUTHENTICATION_STATUS : Type :=
| AUTHENTICATION_STATUS_NONE
| AUTHENTICATION_STATUS_IDLE
| AUTHENTICATION_STATUS_STARTED
| AUTHENTICATION_STATUS_AUTHENTICATING
| AUTHENTICATION_STATUS_AUTHENTICATED
| AUTHENTICATION_STATUS_REFRESHING
| AUTHENTICATION_STATUS_DEAUTHENTICATING
| AUTHENTICATION_STATUS_FAILED
| AUTHENTICATION_STATUS_FAILED_TIMEOUT.

Inductive CREDENTIAL_TYPE : Type :=
| CREDENTIAL_TYPE_NONE
| CREDENTIAL_TYPE_DEVICE_KEY
| CREDENTIAL_TYPE_DEVICE_SAS_TOKEN
| CREDENTIAL_TYPE_X509.

Inductive CBS_OPERATION_RESULT : Type :=
| CBS_OPERATION_RESULT_OK
| CBS_OPERATION_RESULT_other (code : nat).

Inductive DELETE_SAS_TOKEN_RESULT : Type :=
| DELETE_SAS_TOKEN_RESULT_SUCCESS
| DELETE_SAS_TOKEN_RESULT_ERROR.

Definition status_eq_dec (a b : AUTHENTICATION_STATUS) : {a = b} + {a <> b}.
Proof. decide equality. Defined.

Definition credential_type_eq_dec (a b : CREDENTIAL_TYPE) : {a = b} + {a <> b}.
Proof. decide equality. Defined.

(** [STRING_HANDLE] and [const char*]: the text, or [NULL]. *)
Definition STRING_HANDLE : Type := option string.
Definition c_string : Type := option string.
(** [CBS_HANDLE]: an address, or [NULL]. *)
Definition CBS_HANDLE : Type := option nat.
(** A function pointer (an observer), or [NULL]. *)
Definition callback : Type := option nat.
(** [const void*] contexts are never looked into; address 0 is [NULL]. *)
Definition context_ptr : Type := nat.
Definition NULL_context : context_ptr := 0%nat.

Definition STRING_c_str (s : STRING_HANDLE) : c_string := s.
Definition STRING_length (s : STRING_HANDLE) : nat :=
  match s with Some t => String.length t | None => 0%nat end.

(** [AUTHENTICATION_CONFIG], as [authentication_create] reads it; the X.509
    pair is there for the credential the header knows about. *)
Module Config.
Record t : Type := {
  device_id : c_string;
  iot_hub_host_fqdn : c_string;
  device_key : c_string;
  device_sas_token : c_string;
  x509_certificate : c_string;
  x509_private_key : c_string
}.
End Config.

(** ** The state record *)

Record AMQP_TRANSPORT_CBS_STATE : Type := {
  sas_token_lifetime : Z;
  sas_token_refresh_time : Z;
  cbs_request_timeout : Z;
  cbs_handle : CBS_HANDLE;
  sasTokenKeyName : STRING_HANDLE;
  current_sas_token_create_time : Z;
  current_sas_token_put_time : Z
}.

Record DEVICE_CREDENTIAL : Type := {
  type : CREDENTIAL_TYPE;
  deviceKey : STRING_HANDLE;
  deviceSasToken : STRING_HANDLE;
  x509certificate : c_string;
  x509privatekey : c_string
}.

Record AUTHENTICATION_STATE : Type := {
  device_id : STRING_HANDLE;
  iot_hub_host_fqdn : STRING_HANDLE;
  credential : DEVICE_CREDENTIAL;
  cbs_state : AMQP_TRANSPORT_CBS_STATE;
  status : AUTHENTICATION_STATUS;
  on_status_changed_callback : callback;
  on_status_changed_context : context_ptr;
  on_stop_completed_callback : callback;
  on_stop_completed_context : context_ptr
}.

(** [AUTHENTICATION_HANDLE]: [NULL], or the address of a live record,
    given by the record's present contents. *)
Definition AUTHENTICATION_HANDLE : Type := option AUTHENTICATION_STATE.

(** Assignments to single members. *)
Definition set_device_id (s : AUTHENTICATION_STATE) (v : STRING_HANDLE) :=
  {| device_id := v; iot_hub_host_fqdn := iot_hub_host_fqdn s;
     credential := credential s; cbs_state := cbs_state s; status := status s;
     on_status_changed_callback := on_status_changed_callback s;
     on_status_changed_context := on_status_changed_context s;
     on_stop_completed_callback := on_stop_completed_callback s;
     on_stop_completed_context := on_stop_completed_context s |}.

Definition set_iot_hub_host_fqdn (s : AUTHENTICATION_STATE) (v : STRING_HANDLE) :=
  {| device_id := device_id s; iot_hub_host_fqdn := v;
     credential := credential s; cbs_state := cbs_state s; status := status s;
     on_status_changed_callback := on_status_changed_callback s;
     on_status_changed_context := on_status_changed_context s;
     on_stop_completed_callback := on_stop_completed_callback s;
     on_stop_completed_context := on_stop_completed_context s |}.

Definition set_credential (s : AUTHENTICATION_STATE) (v : DEVICE_CREDENTIAL) :=
  {| device_id := device_id s; iot_hub_host_fqdn := iot_hub_host_fqdn s;
     credential := v; cbs_state := cbs_state s; status := status s;
     on_status_changed_callback := on_status_changed_callback s;
     on_status_changed_context := on_status_changed_context s;
     on_stop_completed_callback := on_stop_completed_callback s;
     on_stop_completed_context := on_stop_completed_context s |}.

Definition set_cbs_state (s : AUTHENTICATION_STATE) (v : AMQP_TRANSPORT_CBS_STATE) :=
  {| device_id := device_id s; iot_hub_host_fqdn := iot_hub_host_fqdn s;
     credential := credential s; cbs_state := v; status := status s;
     on_status_changed_callback := on_status_changed_callback s;
     on_status_changed_context := on_status_changed_context s;
     on_stop_completed_callback := on_stop_completed_callback s;
     on_stop_completed_context := on_stop_completed_context s |}.

Definition set_status (s : AUTHENTICATION_STATE) (v : AUTHENTICATION_STATUS) :=
  {| device_id := device_id s; iot_hub_host_fqdn := iot_hub_host_fqdn s;
     credential := credential s; cbs_state := cbs_state s; status := v;
     on_status_changed_callback := on_status_changed_callback s;
     on_status_changed_context := on_status_changed_context s;
     on_stop_completed_callback := on_stop_completed_callback s;
     on_stop_completed_context := on_stop_completed_context s |}.

Definition set_on_status_changed (s : AUTHENTICATION_STATE)
    (f : callback) (c : context_ptr) :=
  {| device_id := device_id s; iot_hub_host_fqdn := iot_hub_host_fqdn s;
     credential := credential s; cbs_state := cbs_state s; status := status s;
     on_status_changed_callback := f;
     on_status_changed_context := c;
     on_stop_completed_callback := on_stop_completed_callback s;
     on_stop_completed_context := on_stop_completed_context s |}.

Definition set_on_stop_completed (s : AUTHENTICATION_STATE)
    (f : callback) (c : context_ptr) :=
  {| device_id := device_id s; iot_hub_host_fqdn := iot_hub_host_fqdn s;
     credential := credential s; cbs_state := cbs_state s; status := status s;
     on_status_changed_callback := on_status_changed_callback s;
     on_status_changed_context := on_status_changed_context s;
     on_stop_completed_callback := f;
     on_stop_completed_context := c |}.

Definition set_type (c : DEVICE_CREDENTIAL) (v : CREDENTIAL_TYPE) :=
  {| type := v; deviceKey := deviceKey c; deviceSasToken := deviceSasToken c;
     x509certificate := x509certificate c; x509privatekey := x509privatekey c |}.

Definition set_deviceKey (c : DEVICE_CREDENTIAL) (v : STRING_HANDLE) :=
  {| type := type c; deviceKey := v; deviceSasToken := deviceSasToken c;
     x509certificate := x509certificate c; x509privatekey := x509privatekey c |}.

Definition set_deviceSasToken (c : DEVICE_CREDENTIAL) (v : STRING_HANDLE) :=
  {| type := type c; deviceKey := deviceKey c; deviceSasToken := v;
     x509certificate := x509certificate c; x509privatekey := x509privatekey c |}.

Definition set_x509credential (c : DEVICE_CREDENTIAL) (cert key : c_string) :=
  {| type := type c; deviceKey := deviceKey c; deviceSasToken := deviceSasToken c;
     x509certificate := cert; x509privatekey := key |}.

Definition set_cbs_handle (c : AMQP_TRANSPORT_CBS_STATE) (v : CBS_HANDLE) :=
  {| sas_token_lifetime := sas_token_lifetime c;
     sas_token_refresh_time := sas_token_refresh_time c;
     cbs_request_timeout := cbs_request_timeout c;
     cbs_handle := v; sasTokenKeyName := sasTokenKeyName c;
     current_sas_token_create_time := current_sas_token_create_time c;
     current_sas_token_put_time := current_sas_token_put_time c |}.

Definition set_sasTokenKeyName (c : AMQP_TRANSPORT_CBS_STATE) (v : STRING_HANDLE) :=
  {| sas_token_lifetime := sas_token_lifetime c;
     sas_token_refresh_time := sas_token_refresh_time c;
     cbs_request_timeout := cbs_request_timeout c;
     cbs_handle := cbs_handle c; sasTokenKeyName := v;
     current_sas_token_create_time := current_sas_token_create_time c;
     current_sas_token_put_time := current_sas_token_put_time c |}.

Definition set_current_sas_token_create_time (c : AMQP_TRANSPORT_CBS_STATE) (v : Z) :=
  {| sas_token_lifetime := sas_token_lifetime c;
     sas_token_refresh_time := sas_token_refresh_time c;
     cbs_request_timeout := cbs_request_timeout c;
     cbs_handle := cbs_handle c; sasTokenKeyName := sasTokenKeyName c;
     current_sas_token_create_time := v;
     current_sas_token_put_time := current_sas_token_put_time c |}.

Definition set_current_sas_token_put_time (c : AMQP_TRANSPORT_CBS_STATE) (v : Z) :=
  {| sas_token_lifetime := sas_token_lifetime c;
     sas_token_refresh_time := sas_token_refresh_time c;
     cbs_request_timeout := cbs_request_timeout c;
     cbs_handle := cbs_handle c; sasTokenKeyName := sasTokenKeyName c;
     current_sas_token_create_time := current_sas_token_create_time c;
     current_sas_token_put_time := v |}.

(** ** The outside world *)

(** What the module does that its caller, the CBS client or the allocator
    can see, in the order it happens. *)
Inductive Event : Type :=
| Call_on_status_changed (f : nat) (context : context_ptr)
    (old_status new_status : AUTHENTICATION_STATUS)
| Call_on_stop_completed (f : nat) (result : DELETE_SAS_TOKEN_RESULT)
    (context : context_ptr)
| Call_cbs_put_token (cbs : CBS_HANDLE) (token_type audience token : c_string)
| Call_cbs_delete_token (cbs : CBS_HANDLE) (audience token_type : c_string)
| Call_STRING_delete (s : string)
| Call_free_auth_state.

(** The collaborators' answers.  The n-th reading of the clock is
    [get_time n] ([None]: [get_time()] gave [INDEFINITE_TIME]; [Some s]:
    [s] seconds since the epoch, already converted to [size_t]); the n-th
    request for memory succeeds iff [allocation n]; the n-th submission to
    the CBS client returns [cbs_submit n]. *)
Record Env : Type := {
  get_time : nat -> option Z;
  allocation : nat -> bool;
  cbs_submit : nat -> Z;
  SASToken_text : string -> string -> string -> Z -> string
}.

Record World : Type := {
  clock_reads : nat;
  allocations : nat;
  cbs_submissions : nat;
  trace : list Event
}.

Definition initial_world : World :=
  {| clock_reads := 0; allocations := 0; cbs_submissions := 0; trace := [] |}.

(** ** A state monad over the record a handle points to and the world *)

Definition M (A : Type) : Type :=
  AUTHENTICATION_STATE -> World -> A * AUTHENTICATION_STATE * World.

Definition ret {A} (a : A) : M A := fun s w => (a, s, w).

Definition bind {A B} (m : M A) (k : A -> M B) : M B :=
  fun s w => let '(a, s', w') := m s w in k a s' w'.

Declare Scope auth_scope.
Delimit Scope auth_scope with auth.
Notation "x <- m ;; k" := (bind m (fun x => k))
  (at level 61, m at next level, right associativity) : auth_scope.
Notation "m ;;; k" := (bind m (fun _ => k))
  (at level 61, right associativity) : auth_scope.
Local Open Scope auth_scope.

Definition read : M AUTHENTICATION_STATE := fun s w => (s, s, w).
Definition write (s' : AUTHENTICATION_STATE) : M unit := fun _ w => (tt, s', w).

Definition emit (e : Event) : M unit :=
  fun s w => (tt, s,
    {| clock_reads := clock_reads w; allocations := allocations w;
       cbs_submissions := cbs_submissions w; trace := trace w ++ [e] |}).

Definition clock_tick (w : World) : World :=
  {| clock_reads := S (clock_reads w); allocations := allocations w;
     cbs_submissions := cbs_submissions w; trace := trace w |}.

Definition allocation_tick (w : World) : World :=
  {| clock_reads := clock_reads w; allocations := S (allocations w);
     cbs_submissions := cbs_submissions w; trace := trace w |}.

Definition submission_tick (w : World) : World :=
  {| clock_reads := clock_reads w; allocations := allocations w;
     cbs_submissions := S (cbs_submissions w); trace := trace w |}.

(** [sprintf_s(dst, size, "%s/devices/%s", a, b)]: the number of characters
    written and the text, or [-1] when the text and its terminator do not
    fit in [size] bytes.  Formatting a [NULL] argument is outside the
    contract of the C library; it is taken to fail as well. *)
Definition sprintf_s_devices (dstSizeInBytes : nat) (a b : c_string) : Z * string :=
  match a, b with
  | Some x, Some y =>
      let text := (x ++ "/devices/" ++ y)%string in
      if (String.length text <? dstSizeInBytes)%nat
      then (Z.of_nat (String.length text), text)
      else (-1, "")
  | _, _ => (-1, "")
  end.

Section WithEnvironment.

Variable env : Env.

(** *** Collaborators *)

Definition read_clock : M (option Z) :=
  fun s w => (get_time env (clock_reads w), s, clock_tick w).

Definition allocate : M bool :=
  fun s w => (allocation env (allocations w), s, allocation_tick w).

Definition submit : M Z :=
  fun s w => (cbs_submit env (cbs_submissions w), s, submission_tick w).

Definition STRING_construct (text : c_string) : M STRING_HANDLE :=
  match text with
  | None => ret None
  | Some t => ok <- allocate ;; ret (if ok then Some t else None)
  end.

Definition STRING_new : M STRING_HANDLE :=
  ok <- allocate ;; ret (if ok then Some "" else None).

Definition STRING_delete (h : STRING_HANDLE) : M unit :=
  match h with
  | None => ret tt
  | Some t => emit (Call_STRING_delete t)
  end.

Definition SASToken_Create (key scope keyName : STRING_HANDLE) (expiry : Z)
  : M STRING_HANDLE :=
  match key, scope, keyName with
  | Some k, Some s, Some n =>
      ok <- allocate ;;
      ret (if ok then Some (SASToken_text env k s n expiry) else None)
  | _, _, _ => ret None
  end.

Definition cbs_put_token (cbs : CBS_HANDLE) (token_type audience token : c_string)
  : M Z :=
  emit (Call_cbs_put_token cbs token_type audience token) ;;; submit.

Definition cbs_delete_token (cbs : CBS_HANDLE) (audience token_type : c_string)
  : M Z :=
  emit (Call_cbs_delete_token cbs audience token_type) ;;; submit.

(** *** Static functions of the module *)

(** [getSecondsSinceEpoch]: [Some s] when it returns [RESULT_OK] having
    stored [s] through [seconds]; [None] when it returns its line number
    (58) and stores nothing.  Its callers only test the result against
    [RESULT_OK]. *)
Definition getSecondsSinceEpoch : M (option Z) := read_clock.

Definition update_status (new_status : AUTHENTICATION_STATUS) : M unit :=
  auth_state <- read ;;
  if status_eq_dec (status auth_state) new_status then ret tt
  else
    let old_status := status auth_state in
    write (set_status auth_state new_status) ;;;
    match on_status_changed_callback auth_state with
    | Some f =>
        emit (Call_on_status_changed f (on_status_changed_context auth_state)
                old_status new_status)
    | None => ret tt
    end.

Definition on_put_token_complete (operation_result : CBS_OPERATION_RESULT) : M unit :=
  match operation_result with
  | CBS_OPERATION_RESULT_OK => update_status AUTHENTICATION_STATUS_AUTHENTICATED
  | _ => update_status AUTHENTICATION_STATUS_FAILED
  end.

Definition on_delete_token_complete (operation_result : CBS_OPERATION_RESULT) : M unit :=
  outcome <-
    match operation_result with
    | CBS_OPERATION_RESULT_OK =>
        auth_state <- read ;;
        write (set_cbs_state auth_state
                 (set_current_sas_token_create_time (cbs_state auth_state) 0)) ;;;
        ret (DELETE_SAS_TOKEN_RESULT_SUCCESS, AUTHENTICATION_STATUS_IDLE)
    | _ => ret (DELETE_SAS_TOKEN_RESULT_ERROR, AUTHENTICATION_STATUS_FAILED)
    end ;;
  let '(result, new_status) := outcome in
  auth_state <- read ;;
  match on_stop_completed_callback auth_state with
  | Some f =>
      emit (Call_on_stop_completed f result (on_stop_completed_context auth_state)) ;;;
      write (set_on_stop_completed auth_state None NULL_context)
  | None => ret tt
  end ;;;
  update_status new_status.

Definition handSASTokenToCbs (cbs_audience sasToken : STRING_HANDLE)
    (current_time_in_sec_since_epoch : Z) : M Z :=
  auth_state <- read ;;
  rc <- cbs_put_token (cbs_handle (cbs_state auth_state)) (Some SAS_TOKEN_TYPE)
          (STRING_c_str cbs_audience) (STRING_c_str sasToken) ;;
  if negb (rc =? RESULT_OK) then ret 150
  else
    auth_state <- read ;;
    write (set_cbs_state auth_state
             (set_current_sas_token_put_time (cbs_state auth_state)
                current_time_in_sec_since_epoch)) ;;;
    ret RESULT_OK.

(** Returns the result code and what it stored through [timeout_reached]. *)
Definition verifyAuthenticationTimeout : M (Z * bool) :=
  now <- getSecondsSinceEpoch ;;
  match now with
  | None => ret (172, true)
  | Some currentTimeInSeconds =>
      auth_state <- read ;;
      ret (RESULT_OK,
           size_mul (size_sub currentTimeInSeconds
                       (current_sas_token_put_time (cbs_state auth_state))) 1000
           >=? cbs_request_timeout (cbs_state auth_state))
  end.

Definition isSasTokenRefreshRequired : M bool :=
  auth_state <- read ;;
  if credential_type_eq_dec (type (credential auth_state))
       CREDENTIAL_TYPE_DEVICE_SAS_TOKEN
  then ret false
  else
    now <- getSecondsSinceEpoch ;;
    match now with
    | None => ret true
    | Some currentTimeInSeconds =>
        ret (size_sub currentTimeInSeconds
               (current_sas_token_create_time (cbs_state auth_state))
             >=? sas_token_refresh_time (cbs_state auth_state) / 1000)
    end.

(** The parameters keep the names the source gives them: the format puts
    the first one before ["/devices/"] and the second one after it.  The
    scratch buffer is local to the function and released on every path; it
    leaves no event. *)
Definition create_devices_path (device_id iot_hub_host_fqdn : STRING_HANDLE)
  : M STRING_HANDLE :=
  let devices_path_length :=
    (STRING_length device_id + STRING_length iot_hub_host_fqdn + 10)%nat in
  got <- allocate ;;
  if negb got then ret None
  else
    let '(written, devices_path) :=
      sprintf_s_devices devices_path_length
        (STRING_c_str device_id) (STRING_c_str iot_hub_host_fqdn) in
    if written <=? 0 then ret None
    else STRING_construct (Some devices_path).

Definition modify (f : AUTHENTICATION_STATE -> AUTHENTICATION_STATE) : M unit :=
  auth_state <- read ;; write (f auth_state).

Definition authenticate_device : M Z :=
  auth_state <- read ;;
  match type (credential auth_state) with
  | CREDENTIAL_TYPE_DEVICE_KEY =>
      now <- getSecondsSinceEpoch ;;
      match now with
      | None => ret 249
      | Some currentTimeInSeconds =>
          let new_expiry_time :=
            size_add currentTimeInSeconds
              (sas_token_lifetime (cbs_state auth_state) / 1000) in
          devices_path <- create_devices_path (iot_hub_host_fqdn auth_state)
                            (device_id auth_state) ;;
          result <-
            match devices_path with
            | None => ret 264
            | Some _ =>
                newSASToken <- SASToken_Create (deviceKey (credential auth_state))
                                 devices_path
                                 (sasTokenKeyName (cbs_state auth_state))
                                 new_expiry_time ;;
                match newSASToken with
                | None => ret 271
                | Some _ =>
                    modify (fun s => set_cbs_state s
                              (set_current_sas_token_create_time (cbs_state s)
                                 currentTimeInSeconds)) ;;;
                    update_status AUTHENTICATION_STATUS_AUTHENTICATING ;;;
                    rc <- handSASTokenToCbs devices_path newSASToken
                            currentTimeInSeconds ;;
                    result <-
                      (if negb (rc =? 0)
                       then update_status AUTHENTICATION_STATUS_FAILED ;;; ret 284
                       else ret RESULT_OK) ;;
                    STRING_delete newSASToken ;;;
                    ret result
                end
            end ;;
          STRING_delete devices_path ;;;
          ret result
      end
  | CREDENTIAL_TYPE_DEVICE_SAS_TOKEN =>
      now <- getSecondsSinceEpoch ;;
      match now with
      | None => ret 311
      | Some currentTimeInSeconds =>
          update_status AUTHENTICATION_STATUS_AUTHENTICATING ;;;
          devices_path <- create_devices_path (iot_hub_host_fqdn auth_state)
                            (device_id auth_state) ;;
          result <-
            match devices_path with
            | None => update_status AUTHENTICATION_STATUS_FAILED ;;; ret 325
            | Some _ =>
                rc <- handSASTokenToCbs devices_path
                        (deviceSasToken (credential auth_state))
                        currentTimeInSeconds ;;
                if negb (rc =? 0)
                then update_status AUTHENTICATION_STATUS_FAILED ;;; ret 332
                else ret RESULT_OK
            end ;;
          STRING_delete devices_path ;;;
          ret result
      end
  | _ => ret 347
  end.

(** *** Module APIs *)

(** What a call of [authentication_create] comes to.  [returns_handle s]:
    the address of a live record holding [s]; [returns_freed_pointer]: the
    address of the record, which the cleanup has released;
    [null_dereference]: the cleanup read a member through [auth_state]
    while [auth_state] was [NULL]. *)
Inductive CREATE_OUTCOME : Type :=
| returns_NULL
| returns_handle (s : AUTHENTICATION_STATE)
| returns_freed_pointer
| null_dereference.

(** Everything of [authentication_create] before its cleanup.  The record
    the monad carries is the block [malloc] hands out, with the contents
    that block happens to have; it is touched only after [malloc]
    succeeded.  The result is whether [auth_state] is non-[NULL], and
    [cleanup_required]. *)
Definition authentication_create_fill (config : option Config.t) : M (bool * bool) :=
  match config with
  | None => ret (false, true)
  | Some config =>
  match Config.device_id config with
  | None => ret (false, true)
  | Some _ =>
  match Config.iot_hub_host_fqdn config with
  | None => ret (false, true)
  | Some _ =>
      got <- allocate ;;
      if negb got then ret (false, true)
      else
        modify (fun s => set_device_id s None) ;;;
        modify (fun s => set_credential s (set_type (credential s) CREDENTIAL_TYPE_NONE)) ;;;
        modify (fun s => set_credential s (set_deviceKey (credential s) None)) ;;;
        modify (fun s => set_credential s (set_deviceSasToken (credential s) None)) ;;;
        modify (fun s => set_credential s (set_x509credential (credential s) None None)) ;;;
        modify (fun s => set_cbs_state s (set_sasTokenKeyName (cbs_state s) None)) ;;;
        modify (fun s => set_status s AUTHENTICATION_STATUS_NONE) ;;;
        modify (fun s => set_on_status_changed s None NULL_context) ;;;
        id <- STRING_construct (Config.device_id config) ;;
        modify (fun s => set_device_id s id) ;;;
        match id with
        | None => ret (true, true)
        | Some _ =>
        host <- STRING_construct (Config.iot_hub_host_fqdn config) ;;
        modify (fun s => set_iot_hub_host_fqdn s host) ;;;
        match host with
        | None => ret (true, true)
        | Some _ =>
            match Config.device_sas_token config, Config.device_key config with
            | Some _, _ =>
                name <- STRING_new ;;
                modify (fun s => set_cbs_state s (set_sasTokenKeyName (cbs_state s) name)) ;;;
                match name with
                | None => ret (true, true)
                | Some _ =>
                    token <- STRING_construct (Config.device_sas_token config) ;;
                    modify (fun s => set_credential s
                                       (set_deviceSasToken (credential s) token)) ;;;
                    match token with
                    | None => ret (true, true)
                    | Some _ =>
                        modify (fun s => set_credential s
                                  (set_type (credential s)
                                     CREDENTIAL_TYPE_DEVICE_SAS_TOKEN)) ;;;
                        modify (fun s => set_cbs_state s
                                  (set_current_sas_token_create_time (cbs_state s) 0)) ;;;
                        ret (true, false)
                    end
                end
            | None, Some _ =>
                name <- STRING_new ;;
                modify (fun s => set_cbs_state s (set_sasTokenKeyName (cbs_state s) name)) ;;;
                match name with
                | None => ret (true, true)
                | Some _ =>
                    key <- STRING_construct (Config.device_key config) ;;
                    modify (fun s => set_credential s (set_deviceKey (credential s) key)) ;;;
                    match key with
                    | None => ret (true, true)
                    | Some _ =>
                        modify (fun s => set_credential s
                                  (set_type (credential s) CREDENTIAL_TYPE_DEVICE_KEY)) ;;;
                        modify (fun s => set_cbs_state s
                                  (set_current_sas_token_create_time (cbs_state s) 0)) ;;;
                        ret (true, false)
                    end
                end
            | None, None => ret (true, true)
            end
        end
        end
  end
  end
  end.

(** The cleanup block and the return.  The first thing the cleanup does is
    read [auth_state->credential.data.deviceKey]. *)
Definition authentication_create_finish (auth_state_set cleanup_required : bool)
  : M CREATE_OUTCOME :=
  if cleanup_required then
    if negb auth_state_set then ret null_dereference
    else
      auth_state <- read ;;
      STRING_delete (deviceKey (credential auth_state)) ;;;
      STRING_delete (iot_hub_host_fqdn auth_state) ;;;
      STRING_delete (deviceSasToken (credential auth_state)) ;;;
      STRING_delete (sasTokenKeyName (cbs_state auth_state)) ;;;
      emit Call_free_auth_state ;;;
      ret returns_freed_pointer
  else
    if auth_state_set
    then auth_state <- read ;; ret (returns_handle auth_state)
    else ret returns_NULL.

(** [authentication_create config], run on the block [block] that [malloc]
    would hand out. *)
Definition authentication_create (block : AUTHENTICATION_STATE)
    (config : option Config.t) (w : World) : CREATE_OUTCOME * World :=
  let '(outcome, _, w') :=
    (flags <- authentication_create_fill config ;;
     authentication_create_finish (fst flags) (snd flags)) block w in
  (outcome, w').

(** A public operation on a handle: [if_null] is what it returns for a
    [NULL] handle, [body] what it does to the record otherwise. *)
Definition on_handle {A} (h : AUTHENTICATION_HANDLE) (if_null : A) (body : M A)
    (w : World) : A * AUTHENTICATION_HANDLE * World :=
  match h with
  | None => (if_null, None, w)
  | Some s => let '(a, s', w') := body s w in (a, Some s', w')
  end.

Definition is_status (s : AUTHENTICATION_STATE) (v : AUTHENTICATION_STATUS) : bool :=
  if status_eq_dec (status s) v then true else false.

Definition is_type (s : AUTHENTICATION_STATE) (v : CREDENTIAL_TYPE) : bool :=
  if credential_type_eq_dec (type (credential s)) v then true else false.

(** [result0] is what the local [result] holds before anything is assigned
    to it; several paths return it as it is. *)
Definition authentication_do_work (result0 : Z) (authentication_handle : AUTHENTICATION_HANDLE) :=
  on_handle authentication_handle 489
    (auth_state <- read ;;
     if is_status auth_state AUTHENTICATION_STATUS_NONE
        || is_status auth_state AUTHENTICATION_STATUS_IDLE
     then ret 499
     else
       (if is_status auth_state AUTHENTICATION_STATUS_AUTHENTICATED
        then
          if is_type auth_state CREDENTIAL_TYPE_DEVICE_KEY
          then
            refresh <- isSasTokenRefreshRequired ;;
            if refresh then update_status AUTHENTICATION_STATUS_REFRESHING else ret tt
          else ret tt
        else ret tt) ;;;
       auth_state <- read ;;
       if is_status auth_state AUTHENTICATION_STATUS_STARTED
          || is_status auth_state AUTHENTICATION_STATUS_REFRESHING
       then
         rc <- authenticate_device ;;
         if negb (rc =? RESULT_OK) then ret 518 else ret result0
       else if is_status auth_state AUTHENTICATION_STATUS_AUTHENTICATING
       then
         checked <- verifyAuthenticationTimeout ;;
         let '(rc, timeout_reached) := checked in
         (if negb (rc =? RESULT_OK)
          then update_status AUTHENTICATION_STATUS_FAILED
          else if timeout_reached
               then update_status AUTHENTICATION_STATUS_FAILED_TIMEOUT
               else ret tt) ;;;
         ret result0
       else ret result0).

Definition authentication_get_credential_type (authentication_handle : AUTHENTICATION_HANDLE)
  : Z * option CREDENTIAL_TYPE :=
  match authentication_handle with
  | None => (550, None)
  | Some auth_state => (RESULT_OK, Some (type (credential auth_state)))
  end.

Definition authentication_start (authentication_handle : AUTHENTICATION_HANDLE)
    (cbs : CBS_HANDLE) (on_status_changed : callback) (context : context_ptr) :=
  on_handle authentication_handle 571
    (auth_state <- read ;;
     if (is_type auth_state CREDENTIAL_TYPE_DEVICE_KEY
         || is_type auth_state CREDENTIAL_TYPE_DEVICE_SAS_TOKEN)
        && match cbs with None => true | Some _ => false end
     then ret 580
     else
       modify (fun s => set_cbs_state s (set_cbs_handle (cbs_state s) cbs)) ;;;
       modify (fun s => set_on_status_changed s on_status_changed context) ;;;
       update_status AUTHENTICATION_STATUS_STARTED ;;;
       ret RESULT_OK).

Definition authentication_stop (authentication_state_handle : AUTHENTICATION_HANDLE)
    (on_stop_completed : callback) (context : context_ptr) :=
  on_handle authentication_state_handle 605
    (auth_state <- read ;;
     match type (credential auth_state) with
     | CREDENTIAL_TYPE_DEVICE_KEY
     | CREDENTIAL_TYPE_DEVICE_SAS_TOKEN =>
         if is_status auth_state AUTHENTICATION_STATUS_FAILED
         then
           update_status AUTHENTICATION_STATUS_IDLE ;;;
           modify (fun s => set_on_status_changed s None NULL_context) ;;;
           ret RESULT_OK
         else if negb (is_status auth_state AUTHENTICATION_STATUS_AUTHENTICATED)
                 && negb (is_status auth_state AUTHENTICATION_STATUS_AUTHENTICATING)
         then ret 629
         else
           devices_path <- create_devices_path (iot_hub_host_fqdn auth_state)
                             (device_id auth_state) ;;
           match devices_path with
           | None => ret 635
           | Some _ =>
               modify (fun s => set_on_stop_completed s on_stop_completed context) ;;;
               update_status AUTHENTICATION_STATUS_DEAUTHENTICATING ;;;
               auth_state <- read ;;
               rc <- cbs_delete_token (cbs_handle (cbs_state auth_state))
                       (STRING_c_str devices_path) (Some SAS_TOKEN_TYPE) ;;
               if negb (rc =? RESULT_OK)
               then
                 modify (fun s => set_on_stop_completed s None NULL_context) ;;;
                 update_status AUTHENTICATION_STATUS_FAILED ;;;
                 ret 650
               else ret RESULT_OK
           end
     | _ => ret 662
     end).

(** [value] points to the option's value, or is [NULL].  Neither branch of
    the source touches the record, and none assigns [result] once the
    handle and the name are there. *)
Definition authentication_set_option (result0 : Z)
    (authentication_handle : AUTHENTICATION_HANDLE)
    (name : c_string) (value : option Z) (w : World)
  : Z * AUTHENTICATION_HANDLE * World :=
  match authentication_handle with
  | None => (678, authentication_handle, w)
  | Some _ =>
      match name with
      | None => (683, authentication_handle, w)
      | Some _ => (result0, authentication_handle, w)
      end
  end.

End WithEnvironment.

(** ** Sample inputs

    The scenarios of the specification: device [dev1] on [hub.example.net],
    a clock that reads 100 seconds, an allocator and a CBS client that
    never refuse. *)

Definition sample_env : Env :=
  {| get_time := fun _ => Some 100;
     allocation := fun _ => true;
     cbs_submit := fun _ => RESULT_OK;
     SASToken_text := fun key scope keyName expiry => ("sr=" ++ scope)%string |}.

(** The same, with an allocator that has nothing left. *)
Definition exhausted_env : Env :=
  {| get_time := fun _ => Some 100;
     allocation := fun _ => false;
     cbs_submit := fun _ => RESULT_OK;
     SASToken_text := fun key scope keyName expiry => ("sr=" ++ scope)%string |}.

Definition sample_cbs_state : AMQP_TRANSPORT_CBS_STATE :=
  {| sas_token_lifetime := 3600000;
     sas_token_refresh_time := 1800000;
     cbs_request_timeout := 30000;
     cbs_handle := Some 7%nat;
     sasTokenKeyName := Some "";
     current_sas_token_create_time := 0;
     current_sas_token_put_time := 0 |}.

Definition device_key_credential : DEVICE_CREDENTIAL :=
  {| type := CREDENTIAL_TYPE_DEVICE_KEY; deviceKey := Some "KEY";
     deviceSasToken := None; x509certificate := None; x509privatekey := None |}.

Definition device_sas_token_credential : DEVICE_CREDENTIAL :=
  {| type := CREDENTIAL_TYPE_DEVICE_SAS_TOKEN; deviceKey := None;
     deviceSasToken := Some "SAS"; x509certificate := None; x509privatekey := None |}.

(** A started authenticator with observer 1 (context 5) registered. *)
Definition sample_state (c : DEVICE_CREDENTIAL) (st : AUTHENTICATION_STATUS)
  : AUTHENTICATION_STATE :=
  {| device_id := Some "dev1";
     iot_hub_host_fqdn := Some "hub.example.net";
     credential := c;
     cbs_state := sample_cbs_state;
     status := st;
     on_status_changed_callback := Some 1%nat;
     on_status_changed_context := 5%nat;
     on_stop_completed_callback := None;
     on_stop_completed_context := NULL_context |}.

(** A block of memory that was used before: nothing in it is zero. *)
Definition stale_block : AUTHENTICATION_STATE :=
  {| device_id := Some "old-id";
     iot_hub_host_fqdn := Some "old-host";
     credential :=
       {| type := CREDENTIAL_TYPE_X509; deviceKey := Some "old-key";
          deviceSasToken := Some "old-token";
          x509certificate := Some "old-cert"; x509privatekey := Some "old-pk" |};
     cbs_state :=
       {| sas_token_lifetime := 11; sas_token_refresh_time := 12;
          cbs_request_timeout := 13; cbs_handle := Some 14%nat;
          sasTokenKeyName := Some "old-name";
          current_sas_token_create_time := 41;
          current_sas_token_put_time := 42 |};
     status := AUTHENTICATION_STATUS_FAILED;
     on_status_changed_callback := Some 15%nat;
     on_status_changed_context := 16%nat;
     on_stop_completed_callback := Some 17%nat;
     on_stop_completed_context := 18%nat |}.

Definition sample_config (key token : c_string) : Config.t :=
  {| Config.device_id := Some "dev1";
     Config.iot_hub_host_fqdn := Some "hub.example.net";
     Config.device_key := key;
     Config.device_sas_token := token;
     Config.x509_certificate := None;
     Config.x509_private_key := None |}.

(** ** The vocabulary of the properties *)

(** [w] with the events [evs] added to its trace. *)
Definition log (w : World) (evs : list Event) : World :=
  {| clock_reads := clock_reads w; allocations := allocations w;
     cbs_submissions := cbs_submissions w; trace := trace w ++ evs |}.

(** The audience and the token type of a submission to the CBS client. *)
Definition cbs_request (e : Event) : option (c_string * c_string) :=
  match e with
  | Call_cbs_put_token _ token_type audience _ => Some (audience, token_type)
  | Call_cbs_delete_token _ audience token_type => Some (audience, token_type)
  | _ => None
  end.

Definition addressed_to (host dev : string) (e : Event) : Prop :=
  match cbs_request e with
  | Some (audience, token_type) =>
      audience = Some (host ++ "/devices/" ++ dev)%string
      /\ token_type = Some "servicebus.windows.net:sastoken"
  | None => True
  end.

Definition devices_path_text (first second : string) : string :=
  (first ++ "/devices/" ++ second)%string.

(** The credentials that authenticate through CBS. *)
Definition cbs_bearing (t : CREDENTIAL_TYPE) : bool :=
  match t with
  | CREDENTIAL_TYPE_DEVICE_KEY | CREDENTIAL_TYPE_DEVICE_SAS_TOKEN => true
  | _ => false
  end.

(** The one refusal of [authentication_start] on a live record: a
    credential that goes through CBS, and no CBS client. *)
Definition start_refused (s : AUTHENTICATION_STATE) (cbs : CBS_HANDLE) : bool :=
  cbs_bearing (type (credential s))
  && match cbs with None => true | Some _ => false end.

(** Nothing to build a record from: no configuration, no device id, no host
    name, or neither a device key nor a SAS token. *)
Definition nothing_to_create (config : option Config.t) : bool :=
  match config with
  | None => true
  | Some c =>
      match Config.device_id c, Config.iot_hub_host_fqdn c with
      | Some _, Some _ =>
          match Config.device_key c, Config.device_sas_token c with
          | None, None => true
          | _, _ => false
          end
      | _, _ => true
      end
  end.

(** The record is never set up: no configuration, no device id, no host
    name, or no memory for the record. *)
Definition record_never_allocated (env : Env) (config : option Config.t) (w : World)
  : bool :=
  match config with
  | None => true
  | Some c =>
      match Config.device_id c, Config.iot_hub_host_fqdn c with
      | Some _, Some _ => negb (allocation env (allocations w))
      | _, _ => true
      end
  end.

(** The record [authentication_create] returns for a device key on
    [stale_block]. *)
Definition created_from_stale_block : AUTHENTICATION_STATE :=
  Eval cbv in
    match fst (authentication_create sample_env stale_block
                 (Some (sample_config (Some "KEY") None)) initial_world) with
    | returns_handle s => s
    | _ => stale_block
    end.

(** Both requests for memory of [create_devices_path] are granted. *)
Definition audience_built (env : Env) (w : World) : bool :=
  allocation env (allocations w) && allocation env (S (allocations w)).

(** [SASToken_Create], called once the audience is built, succeeds. *)
Definition token_built (env : Env) (s : AUTHENTICATION_STATE) (w : World) : bool :=
  match deviceKey (credential s), sasTokenKeyName (cbs_state s) with
  | Some _, Some _ => allocation env (S (S (allocations w)))
  | _, _ => false
  end.

(** The refresh test of [authentication_do_work] on an authenticated
    record. *)
Definition refresh_due (env : Env) (s : AUTHENTICATION_STATE) (w : World) : bool :=
  match type (credential s) with
  | CREDENTIAL_TYPE_DEVICE_KEY =>
      match get_time env (clock_reads w) with
      | None => true
      | Some now =>
          size_sub now (current_sas_token_create_time (cbs_state s))
          >=? sas_token_refresh_time (cbs_state s) / 1000
      end
  | _ => false
  end.

(** A tick that finds nothing to do. *)
Definition idle_tick (env : Env) (s : AUTHENTICATION_STATE) (w : World) : bool :=
  match status s with
  | AUTHENTICATION_STATUS_AUTHENTICATED => negb (refresh_due env s w)
  | AUTHENTICATION_STATUS_FAILED
  | AUTHENTICATION_STATUS_FAILED_TIMEOUT
  | AUTHENTICATION_STATUS_DEAUTHENTICATING => true
  | _ => false
  end.

(** The status changes an observer was told of. *)
Definition notification (e : Event)
  : option (AUTHENTICATION_STATUS * AUTHENTICATION_STATUS) :=
  match e with
  | Call_on_status_changed _ _ old_status new_status => Some (old_status, new_status)
  | _ => None
  end.

Fixpoint notifications (evs : list Event)
  : list (AUTHENTICATION_STATUS * AUTHENTICATION_STATUS) :=
  match evs with
  | [] => []
  | e :: rest =>
      match notification e with
      | Some p => p :: notifications rest
      | None => notifications rest
      end
  end.

(** [leads a l b]: [l] is a chain of genuine changes that starts at [a]
    and ends at [b]. *)
Fixpoint leads (a : AUTHENTICATION_STATUS)
    (l : list (AUTHENTICATION_STATUS * AUTHENTICATION_STATUS))
    (b : AUTHENTICATION_STATUS) : bool :=
  match l with
  | [] => if status_eq_dec a b then true else false
  | (x, y) :: rest =>
      (if status_eq_dec a x then true else false)
      && (if status_eq_dec x y then false else true)
      && leads y rest b
  end.

(** What can happen to a live record: a public operation, or a completion
    delivered by the CBS client. *)
Inductive Operation : Type :=
| Start (cbs : CBS_HANDLE) (on_status_changed : callback) (context : context_ptr)
| Do_work (result0 : Z)
| Stop (on_stop_completed : callback) (context : context_ptr)
| Set_option (result0 : Z) (name : c_string) (value : option Z)
| Put_token_complete (operation_result : CBS_OPERATION_RESULT)
| Delete_token_complete (operation_result : CBS_OPERATION_RESULT).

Definition landed (s : AUTHENTICATION_STATE)
    (r : Z * AUTHENTICATION_HANDLE * World) : AUTHENTICATION_STATE * World :=
  match r with
  | (_, Some s', w') => (s', w')
  | (_, None, w') => (s, w')
  end.

Definition perform (env : Env) (op : Operation) (s : AUTHENTICATION_STATE) (w : World)
  : AUTHENTICATION_STATE * World :=
  match op with
  | Start cbs f c => landed s (authentication_start (Some s) cbs f c w)
  | Do_work result0 => landed s (authentication_do_work env result0 (Some s) w)
  | Stop f c => landed s (authentication_stop env (Some s) f c w)
  | Set_option result0 name value =>
      landed s (authentication_set_option result0 (Some s) name value w)
  | Put_token_complete r =>
      let '(_, s', w') := on_put_token_complete r s w in (s', w')
  | Delete_token_complete r =>
      let '(_, s', w') := on_delete_token_complete r s w in (s', w')
  end.

(** The observer in place while the operation changes the status: the one
    [authentication_start] installs, else the one already there. *)
Definition observer_during (op : Operation) (s : AUTHENTICATION_STATE) : callback :=
  match op with
  | Start cbs f _ => if start_refused s cbs then on_status_changed_callback s else f
  | _ => on_status_changed_callback s
  end.

(** ** [authentication_destroy] *)

(** The releases [authentication_destroy] makes, in order; a [NULL] handle
    is only logged.  Every value of [CREDENTIAL_TYPE] has its case, so the
    [default] of the source is not reached. *)
Definition authentication_destroy (authentication_handle : AUTHENTICATION_HANDLE)
    (w : World) : World :=
  match authentication_handle with
  | None => w
  | Some auth_state =>
      let '(_, _, w') :=
        (STRING_delete (device_id auth_state) ;;;
         STRING_delete (iot_hub_host_fqdn auth_state) ;;;
         match type (credential auth_state) with
         | CREDENTIAL_TYPE_NONE
         | CREDENTIAL_TYPE_X509 => emit Call_free_auth_state
         | CREDENTIAL_TYPE_DEVICE_KEY =>
             STRING_delete (deviceKey (credential auth_state)) ;;;
             STRING_delete (sasTokenKeyName (cbs_state auth_state)) ;;;
             emit Call_free_auth_state
         | CREDENTIAL_TYPE_DEVICE_SAS_TOKEN =>
             STRING_delete (deviceSasToken (credential auth_state)) ;;;
             STRING_delete (sasTokenKeyName (cbs_state auth_state)) ;;;
             emit Call_free_auth_state
         end) auth_state w in
      w'
  end.

(** ** Further vocabulary: worlds, sessions, counts *)

(** The call of the status observer of [s] for a change from [a] to [b]:
    none when [a] is [b], none without an observer. *)
Definition notify (s : AUTHENTICATION_STATE) (a b : AUTHENTICATION_STATUS) : list Event :=
  if status_eq_dec a b then []
  else match on_status_changed_callback s with
       | Some f => [Call_on_status_changed f (on_status_changed_context s) a b]
       | None => []
       end.

(** [w] after [n] more readings of the clock, [m] more requests for memory
    and [k] more submissions, with [evs] added to the trace. *)
Definition later (w : World) (n m k : nat) (evs : list Event) : World :=
  {| clock_reads := (n + clock_reads w)%nat;
     allocations := (m + allocations w)%nat;
     cbs_submissions := (k + cbs_submissions w)%nat;
     trace := trace w ++ evs |}.

(** The status a tick may leave behind, given the status it found. *)
Definition tick_step (a b : AUTHENTICATION_STATUS) : bool :=
  match a, b with
  | AUTHENTICATION_STATUS_STARTED, AUTHENTICATION_STATUS_STARTED
  | AUTHENTICATION_STATUS_STARTED, AUTHENTICATION_STATUS_AUTHENTICATING
  | AUTHENTICATION_STATUS_STARTED, AUTHENTICATION_STATUS_FAILED
  | AUTHENTICATION_STATUS_REFRESHING, AUTHENTICATION_STATUS_REFRESHING
  | AUTHENTICATION_STATUS_REFRESHING, AUTHENTICATION_STATUS_AUTHENTICATING
  | AUTHENTICATION_STATUS_REFRESHING, AUTHENTICATION_STATUS_FAILED
  | AUTHENTICATION_STATUS_AUTHENTICATING, AUTHENTICATION_STATUS_AUTHENTICATING
  | AUTHENTICATION_STATUS_AUTHENTICATING, AUTHENTICATION_STATUS_FAILED
  | AUTHENTICATION_STATUS_AUTHENTICATING, AUTHENTICATION_STATUS_FAILED_TIMEOUT
  | AUTHENTICATION_STATUS_AUTHENTICATED, AUTHENTICATION_STATUS_AUTHENTICATED
  | AUTHENTICATION_STATUS_AUTHENTICATED, AUTHENTICATION_STATUS_REFRESHING
  | AUTHENTICATION_STATUS_AUTHENTICATED, AUTHENTICATION_STATUS_AUTHENTICATING
  | AUTHENTICATION_STATUS_AUTHENTICATED, AUTHENTICATION_STATUS_FAILED
  | AUTHENTICATION_STATUS_NONE, AUTHENTICATION_STATUS_NONE
  | AUTHENTICATION_STATUS_IDLE, AUTHENTICATION_STATUS_IDLE
  | AUTHENTICATION_STATUS_DEAUTHENTICATING, AUTHENTICATION_STATUS_DEAUTHENTICATING
  | AUTHENTICATION_STATUS_FAILED, AUTHENTICATION_STATUS_FAILED
  | AUTHENTICATION_STATUS_FAILED_TIMEOUT, AUTHENTICATION_STATUS_FAILED_TIMEOUT => true
  | _, _ => false
  end.

Definition not_started (a : AUTHENTICATION_STATUS) : bool :=
  match a with
  | AUTHENTICATION_STATUS_NONE | AUTHENTICATION_STATUS_IDLE => true
  | _ => false
  end.

(** The statuses from which [authentication_stop] submits a delete. *)
Definition stoppable (a : AUTHENTICATION_STATUS) : bool :=
  match a with
  | AUTHENTICATION_STATUS_AUTHENTICATED | AUTHENTICATION_STATUS_AUTHENTICATING => true
  | _ => false
  end.

(** The calls of the stop callback in a trace. *)
Fixpoint stop_completions (evs : list Event)
  : list (nat * DELETE_SAS_TOKEN_RESULT * context_ptr) :=
  match evs with
  | [] => []
  | Call_on_stop_completed f r c :: rest => (f, r, c) :: stop_completions rest
  | _ :: rest => stop_completions rest
  end.

(** What [on_delete_token_complete] makes of the result it is given. *)
Definition delete_outcome (r : CBS_OPERATION_RESULT)
  : DELETE_SAS_TOKEN_RESULT * AUTHENTICATION_STATUS :=
  match r with
  | CBS_OPERATION_RESULT_OK =>
      (DELETE_SAS_TOKEN_RESULT_SUCCESS, AUTHENTICATION_STATUS_IDLE)
  | _ => (DELETE_SAS_TOKEN_RESULT_ERROR, AUTHENTICATION_STATUS_FAILED)
  end.

(** The call of the stop callback of [s] with result [r]: none without a
    stop callback. *)
Definition stop_callback_call (s : AUTHENTICATION_STATE) (r : DELETE_SAS_TOKEN_RESULT)
  : list Event :=
  match on_stop_completed_callback s with
  | Some f => [Call_on_stop_completed f r (on_stop_completed_context s)]
  | None => []
  end.

(** The members no operation on a live record writes. *)
Definition fixed_part (s : AUTHENTICATION_STATE)
  : STRING_HANDLE * STRING_HANDLE * DEVICE_CREDENTIAL * (Z * Z * Z) * STRING_HANDLE :=
  (device_id s, iot_hub_host_fqdn s, credential s,
   (sas_token_lifetime (cbs_state s), sas_token_refresh_time (cbs_state s),
    cbs_request_timeout (cbs_state s)),
   sasTokenKeyName (cbs_state s)).

(** The credential a configuration asks for: the SAS token when there is
    one, else the device key. *)
Definition configured_credential (c : Config.t) : CREDENTIAL_TYPE * c_string :=
  match Config.device_sas_token c with
  | Some t => (CREDENTIAL_TYPE_DEVICE_SAS_TOKEN, Some t)
  | None => (CREDENTIAL_TYPE_DEVICE_KEY, Config.device_key c)
  end.

(** The credential string a record holds for its type. *)
Definition stored_credential (s : AUTHENTICATION_STATE) : STRING_HANDLE :=
  match type (credential s) with
  | CREDENTIAL_TYPE_DEVICE_KEY => deviceKey (credential s)
  | CREDENTIAL_TYPE_DEVICE_SAS_TOKEN => deviceSasToken (credential s)
  | _ => None
  end.

(** How often a trace releases the state record. *)
Fixpoint frees (evs : list Event) : nat :=
  match evs with
  | [] => 0
  | Call_free_auth_state :: rest => S (frees rest)
  | _ :: rest => frees rest
  end.

(** Carrying out a list of operations, one after the other. *)
Fixpoint perform_all (env : Env) (ops : list Operation)
    (s : AUTHENTICATION_STATE) (w : World) : AUTHENTICATION_STATE * World :=
  match ops with
  | [] => (s, w)
  | op :: rest =>
      let '(s', w') := perform env op s w in perform_all env rest s' w'
  end.

(** A whole session: create, start, one tick, the put completes, stop, the
    delete completes, destroy.  The result is the record as it was when it
    was destroyed and the world after that; [None] when
    [authentication_create] gives no live record. *)
Definition session (env : Env) (block : AUTHENTICATION_STATE) (config : Config.t)
    (cbs : CBS_HANDLE) (observer : callback) (context : context_ptr)
    (stop_observer : callback) (stop_context : context_ptr) (result0 : Z)
    (w : World) : option (AUTHENTICATION_STATE * World) :=
  match authentication_create env block (Some config) w with
  | (returns_handle s0, w0) =>
      let '(s, w') :=
        perform_all env
          [Start cbs observer context;
           Do_work result0;
           Put_token_complete CBS_OPERATION_RESULT_OK;
           Stop stop_observer stop_context;
           Delete_token_complete CBS_OPERATION_RESULT_OK] s0 w0 in
      Some (s, authentication_destroy (Some s) w')
  | _ => None
  end.

(** More sample inputs: a clock that cannot be read, a token created at
    second 99 that is to be refreshed after one second, and a put recorded
    one second after what the clock of [sample_env] reads. *)
Definition clockless_env : Env :=
  {| get_time := fun _ => None;
     allocation := fun _ => true;
     cbs_submit := fun _ => RESULT_OK;
     SASToken_text := fun key scope keyName expiry => ("sr=" ++ scope)%string |}.

Definition refresh_due_state : AUTHENTICATION_STATE :=
  set_cbs_state
    (sample_state device_key_credential AUTHENTICATION_STATUS_AUTHENTICATED)
    {| sas_token_lifetime := 2000; sas_token_refresh_time := 1000;
       cbs_request_timeout := 30000; cbs_handle := Some 7%nat;
       sasTokenKeyName := Some "";
       current_sas_token_create_time := 99;
       current_sas_token_put_time := 99 |}.

Definition put_ahead_state : AUTHENTICATION_STATE :=
  set_cbs_state
    (sample_state device_key_credential AUTHENTICATION_STATUS_AUTHENTICATING)
    (set_current_sas_token_put_time sample_cbs_state 101).

(** ** Vocabulary for what is submitted and what is observed *)

Inductive cbs_operation : Type := put_token | delete_token.

(** The operation, the audience and the token type of a submission to the
    CBS client. *)
Definition cbs_call (e : Event) : option (cbs_operation * c_string * c_string) :=
  match e with
  | Call_cbs_put_token _ token_type audience _ => Some (put_token, audience, token_type)
  | Call_cbs_delete_token _ audience token_type =>
      Some (delete_token, audience, token_type)
  | _ => None
  end.

(** The submissions of a trace, in order. *)
Fixpoint cbs_calls (evs : list Event) : list (cbs_operation * c_string * c_string) :=
  match evs with
  | [] => []
  | e :: rest =>
      match cbs_call e with
      | Some c => c :: cbs_calls rest
      | None => cbs_calls rest
      end
  end.

(** [authenticate_device] gets as far as the submission: the clock is
    read, the audience is built and, for a device key, so is the token. *)
Definition put_reached (env : Env) (s : AUTHENTICATION_STATE) (w : World) : bool :=
  match get_time env (clock_reads w) with
  | None => false
  | Some _ =>
      match type (credential s) with
      | CREDENTIAL_TYPE_DEVICE_KEY => audience_built env w && token_built env s w
      | CREDENTIAL_TYPE_DEVICE_SAS_TOKEN => audience_built env w
      | _ => false
      end
  end.

(** [authentication_stop] gets as far as the submission. *)
Definition delete_reached (env : Env) (s : AUTHENTICATION_STATE) (w : World) : bool :=
  cbs_bearing (type (credential s)) && stoppable (status s) && audience_built env w.

(** The calls of the status observer in a trace, as they are. *)
Fixpoint observer_calls (evs : list Event) : list Event :=
  match evs with
  | [] => []
  | Call_on_status_changed f c a b :: rest =>
      Call_on_status_changed f c a b :: observer_calls rest
  | _ :: rest => observer_calls rest
  end.

(** The context the observer of [observer_during] is registered with. *)
Definition context_during (op : Operation) (s : AUTHENTICATION_STATE) : context_ptr :=
  match op with
  | Start cbs _ c => if start_refused s cbs then on_status_changed_context s else c
  | _ => on_status_changed_context s
  end.

(** The calls that tell observer [f], registered with context [c], of the
    changes of [chain], one call per change. *)
Definition calls_for (f : nat) (c : context_ptr)
    (chain : list (AUTHENTICATION_STATUS * AUTHENTICATION_STATUS)) : list Event :=
  map (fun p => Call_on_status_changed f c (fst p) (snd p)) chain.

(** The copy of the device id, the second request for memory of
    [authentication_create], is granted. *)
Definition device_id_copied (env : Env) (w : World) : bool :=
  allocation env (S (allocations w)).

(** * Properties *)

(** ** Proof tools *)

Ltac unfold_monad :=
  unfold bind, ret, read, write, modify, emit, read_clock, allocate, submit in *.

Ltac unfold_static :=
  unfold authenticate_device, handSASTokenToCbs, verifyAuthenticationTimeout,
    isSasTokenRefreshRequired, getSecondsSinceEpoch, update_status,
    on_put_token_complete, on_delete_token_complete,
    cbs_put_token, cbs_delete_token, SASToken_Create, STRING_delete, STRING_new,
    STRING_c_str, is_status, is_type in *.

Ltac unfold_api :=
  unfold authentication_do_work, authentication_start, authentication_stop,
    authentication_set_option, on_handle in *.

(** Case analysis on the innermost scrutinee the goal is stuck on. *)
Ltac split_innermost :=
  match goal with
  | |- context [match ?x with _ => _ end] =>
      lazymatch x with
      | context [match _ with _ => _ end] => fail
      | _ => destruct x eqn:?
      end
  end.

(** Worlds written with [later] and [notify], brought to one shape. *)
Ltac tidy_world :=
  unfold later, notify, clock_tick, allocation_tick, submission_tick; cbn;
  rewrite <- ?app_assoc, ?app_nil_r; cbn.

(** Records built by a run of assignments, written out member by member. *)
Ltac flatten_record :=
  cbv beta iota delta [set_device_id set_iot_hub_host_fqdn set_credential
    set_cbs_state set_status set_on_status_changed set_on_stop_completed
    set_type set_deviceKey set_deviceSasToken set_x509credential
    set_cbs_handle set_sasTokenKeyName set_current_sas_token_create_time
    set_current_sas_token_put_time].

(** ** The audience string *)

Lemma length_append (a b : string) :
  String.length (a ++ b) = (String.length a + String.length b)%nat.
Proof. induction a as [| c a IH]; simpl; [ reflexivity | now rewrite IH ]. Qed.

(** The ten extra bytes are enough: nine for ["/devices/"], one for the
    terminator. *)
Lemma sprintf_s_devices_fits (a b : string) :
  sprintf_s_devices (String.length a + String.length b + 10) (Some a) (Some b)
  = (Z.of_nat (String.length a + 9 + String.length b), devices_path_text a b).
Proof.
  unfold sprintf_s_devices, devices_path_text.
  assert (L : String.length (a ++ "/devices/" ++ b)
              = (String.length a + 9 + String.length b)%nat).
  { rewrite !length_append. simpl. lia. }
  rewrite L.
  replace (String.length a + 9 + String.length b
           <? String.length a + String.length b + 10)%nat
    with true by (symmetry; apply Nat.ltb_lt; lia).
  reflexivity.
Qed.

(** [create_devices_path] asks for memory twice and fails only when it is
    refused. *)
Lemma create_devices_path_eq (env : Env) (first second : string)
    (s : AUTHENTICATION_STATE) (w : World) :
  create_devices_path env (Some first) (Some second) s w =
  (if allocation env (allocations w)
   then if allocation env (S (allocations w))
        then Some (devices_path_text first second)
        else None
   else None,
   s,
   if allocation env (allocations w)
   then allocation_tick (allocation_tick w)
   else allocation_tick w).
Proof.
  unfold create_devices_path, STRING_length, STRING_c_str.
  rewrite sprintf_s_devices_fits.
  unfold STRING_construct. unfold_monad.
  destruct (allocation env (allocations w)); simpl; [ | reflexivity ].
  replace (Z.of_nat (String.length first + 9 + String.length second) <=? 0)
    with false by (symmetry; apply Z.leb_gt; lia).
  destruct (allocation env (S (allocations w))) eqn:E; simpl; rewrite E; reflexivity.
Qed.

(** Without one of the two texts there is no path. *)
Lemma create_devices_path_null (env : Env) (first second : STRING_HANDLE)
    (s : AUTHENTICATION_STATE) (w : World) :
  first = None \/ second = None ->
  create_devices_path env first second s w = (None, s, allocation_tick w).
Proof.
  intro H. unfold create_devices_path, sprintf_s_devices, STRING_c_str. unfold_monad.
  destruct (allocation env (allocations w)); cbn; [ | reflexivity ].
  destruct first, second; cbn; try reflexivity.
  destruct H; discriminate.
Qed.

Ltac crunch :=
  repeat (cbn -[create_devices_path] in *;
          try rewrite !create_devices_path_eq;
          try rewrite !create_devices_path_null by (first [ now left | now right ]);
          try split_innermost).

Lemma Forall_snoc {A} (P : A -> Prop) (l : list A) (a : A) :
  Forall P l -> P a -> Forall P (l ++ [a]).
Proof.
  intros Hl Ha. apply Forall_app.
  split; [ assumption | constructor; [ assumption | constructor ] ].
Qed.

Ltac close_addressed :=
  repeat (first [ assumption
                | apply Forall_snoc
                | exact I
                | (split; reflexivity) ]).

Lemma authenticate_device_addressed (env : Env) (s : AUTHENTICATION_STATE) (w : World)
    (host dev : string) :
  iot_hub_host_fqdn s = Some host -> device_id s = Some dev ->
  Forall (addressed_to host dev) (trace w) ->
  Forall (addressed_to host dev) (trace (snd (authenticate_device env s w))).
Proof.
  intros Hh Hd Hw. destruct s as [d h [ty k t c p] cs st f x g y].
  cbn in Hh, Hd. subst.
  unfold_static. unfold_monad.
  destruct ty, st; crunch; close_addressed.
Qed.

(** With memory and a willing CBS client, a started DeviceKey authenticator
    does submit its token, to the audience built from host and device. *)
Lemma authenticate_device_submits :
  In (Call_cbs_put_token (Some 7%nat) (Some SAS_TOKEN_TYPE)
        (Some "hub.example.net/devices/dev1")
        (Some "sr=hub.example.net/devices/dev1"))
     (trace (snd (authenticate_device sample_env
                    (sample_state device_key_credential AUTHENTICATION_STATUS_STARTED)
                    initial_world))).
Proof. vm_compute. right. left. reflexivity. Qed.

Lemma cbs_calls_app (a b : list Event) :
  cbs_calls (a ++ b) = cbs_calls a ++ cbs_calls b.
Proof.
  induction a as [| e a IH]; [ reflexivity | ].
  cbn. destruct (cbs_call e); cbn; rewrite IH; reflexivity.
Qed.

Ltac settle_calls :=
  cbn; rewrite ?cbs_calls_app; cbn; rewrite <- ?app_assoc, ?app_nil_r; reflexivity.

(** C1. On a record that holds host name [host] and device id [dev]:
    [authenticate_device] submits to the CBS client exactly when it gets
    as far as the submission, and then exactly once, by [cbs_put_token],
    with audience [host ++ "/devices/" ++ dev] and token type
    ["servicebus.windows.net:sastoken"]; [authentication_stop] submits
    exactly when it gets as far as the submission, and then exactly once,
    by [cbs_delete_token], with the same audience and token type.  A tick
    on a started or refreshing record leaves the trace of
    [authenticate_device]; and on any record a tick keeps every submission
    of the trace addressed to that audience with that token type. *)
Theorem cbs_requests_carry_devices_path :
  forall (env : Env) (s : AUTHENTICATION_STATE) (w : World) (host dev : string),
    iot_hub_host_fqdn s = Some host ->
    device_id s = Some dev ->
    cbs_calls (trace (snd (authenticate_device env s w)))
    = cbs_calls (trace w)
      ++ (if put_reached env s w
          then [(put_token, Some (host ++ "/devices/" ++ dev)%string,
                 Some "servicebus.windows.net:sastoken")]
          else [])
    /\ (forall on_stop_completed context,
          cbs_calls (trace (snd (authentication_stop env (Some s)
                                   on_stop_completed context w)))
          = cbs_calls (trace w)
            ++ (if delete_reached env s w
                then [(delete_token, Some (host ++ "/devices/" ++ dev)%string,
                       Some "servicebus.windows.net:sastoken")]
                else []))
    /\ (forall result0,
          status s = AUTHENTICATION_STATUS_STARTED
          \/ status s = AUTHENTICATION_STATUS_REFRESHING ->
          trace (snd (authentication_do_work env result0 (Some s) w))
          = trace (snd (authenticate_device env s w)))
    /\ (forall result0,
          Forall (addressed_to host dev) (trace w) ->
          Forall (addressed_to host dev)
            (trace (snd (authentication_do_work env result0 (Some s) w)))).
Proof.
  intros env s w host dev Hh Hd.
  destruct s as [d h [ty k t c p] [l rf to cb kn ct pt] st f x g y].
  cbn in Hh, Hd. subst d h.
  split; [ | split; [ | split ] ].
  - unfold put_reached, audience_built, token_built. cbn.
    destruct (get_time env (clock_reads w)) as [now | ] eqn:Hn;
      destruct (allocation env (allocations w)) eqn:A0;
      destruct (allocation env (S (allocations w))) eqn:A1;
      destruct (allocation env (S (S (allocations w)))) eqn:A2;
      unfold_static; unfold_monad;
      destruct ty;
      repeat (progress (cbn -[create_devices_path];
                        rewrite ?create_devices_path_eq, ?Hn, ?A0, ?A1, ?A2)
              || split_innermost);
      settle_calls.
  - intros cb' ctx. unfold delete_reached, audience_built. cbn.
    destruct (allocation env (allocations w)) eqn:A0;
      destruct (allocation env (S (allocations w))) eqn:A1;
      unfold_api; unfold_static; unfold_monad;
      destruct ty, st;
      repeat (progress (cbn -[create_devices_path];
                        rewrite ?create_devices_path_eq, ?A0, ?A1)
              || split_innermost);
      settle_calls.
  - intros result0 Hs. cbn in Hs.
    unfold authentication_do_work, on_handle, is_status, is_type, bind, read, ret.
    destruct Hs; subst st; cbn -[authenticate_device];
      match goal with
      | |- context [authenticate_device env ?s0 ?w0] =>
          destruct (authenticate_device env s0 w0) as [[a s'] w']
      end; cbn; destruct (negb (a =? RESULT_OK)); reflexivity.
  - intros result0 Hw. unfold_api. unfold_static. unfold_monad.
    destruct ty, st; crunch; close_addressed.
Qed.

Lemma cbs_requests_carry_devices_path_witness :
  cbs_calls
    (trace (snd (authenticate_device sample_env
                   (sample_state device_key_credential AUTHENTICATION_STATUS_STARTED)
                   initial_world)))
  = [(put_token, Some "hub.example.net/devices/dev1",
      Some "servicebus.windows.net:sastoken")]
  /\ cbs_calls
       (trace (snd (authentication_stop sample_env
                      (Some (sample_state device_key_credential
                               AUTHENTICATION_STATUS_AUTHENTICATED))
                      (Some 2%nat) 9%nat initial_world)))
     = [(delete_token, Some "hub.example.net/devices/dev1",
         Some "servicebus.windows.net:sastoken")].
Proof.
  split.
  - exact (proj1 (cbs_requests_carry_devices_path sample_env
                    (sample_state device_key_credential
                       AUTHENTICATION_STATUS_STARTED)
                    initial_world "hub.example.net" "dev1" eq_refl eq_refl)).
  - exact (proj1 (proj2 (cbs_requests_carry_devices_path sample_env
                           (sample_state device_key_credential
                              AUTHENTICATION_STATUS_AUTHENTICATED)
                           initial_world "hub.example.net" "dev1" eq_refl eq_refl))
             (Some 2%nat) 9%nat).
Defined.

(** ** The status choke-point *)

(** [update_status], through which every change of status goes: when the
    new status differs from the old one, a registered observer is called
    exactly once, with its context, the old and the new status (and
    nothing is called when no observer is registered); when the new status
    equals the old one, nothing is called and the record stays as it is. *)
Lemma update_status_observer :
  forall (s : AUTHENTICATION_STATE) (w : World)
         (new_status : AUTHENTICATION_STATUS),
    (status s <> new_status ->
     (forall f, on_status_changed_callback s = Some f ->
        update_status new_status s w =
          (tt, set_status s new_status,
           log w [Call_on_status_changed f (on_status_changed_context s)
                    (status s) new_status]))
     /\ (on_status_changed_callback s = None ->
         update_status new_status s w = (tt, set_status s new_status, w)))
    /\ (status s = new_status -> update_status new_status s w = (tt, s, w)).
Proof.
  intros s w new_status. unfold update_status. unfold_monad.
  destruct (status_eq_dec (status s) new_status) as [E | E].
  - split; [ intro H; contradiction | reflexivity ].
  - split; [ intros _ | intro H; contradiction ].
    split.
    + intros f Hf. rewrite Hf. reflexivity.
    + intro Hf. rewrite Hf. destruct w; reflexivity.
Qed.


(** ** [authentication_start] *)

(** C9, as the code has it. [authentication_start] does not look at the
    status: on every live record, whatever its status, unless a CBS-bearing
    credential comes without a CBS client, it returns [RESULT_OK], records
    the CBS client and the observer, and leaves the status [STARTED]. *)
Theorem start_moves_any_status_to_started :
  forall (s : AUTHENTICATION_STATE) (w : World)
         (cbs : CBS_HANDLE) (on_status_changed : callback) (context : context_ptr),
    start_refused s cbs = false ->
    exists s' w',
      authentication_start (Some s) cbs on_status_changed context w
        = (RESULT_OK, Some s', w')
      /\ status s' = AUTHENTICATION_STATUS_STARTED
      /\ cbs_handle (cbs_state s') = cbs
      /\ on_status_changed_callback s' = on_status_changed
      /\ on_status_changed_context s' = context.
Proof.
  intros s w cbs f c H.
  destruct s as [d h [ty k t ce p] cs st g x g' y].
  unfold start_refused in H. cbn in H.
  unfold_api. unfold_static. unfold_monad.
  destruct ty, cbs, st; try discriminate H; cbn;
    repeat split_innermost; cbn; eexists; eexists; repeat split; reflexivity.
Qed.

Lemma start_moves_any_status_to_started_witness :
  start_refused
    (sample_state device_sas_token_credential AUTHENTICATION_STATUS_AUTHENTICATED)
    (Some 7%nat) = false
  /\ exists s' w',
       authentication_start
         (Some (sample_state device_sas_token_credential
                  AUTHENTICATION_STATUS_AUTHENTICATED))
         (Some 7%nat) (Some 3%nat) 8%nat initial_world
       = (RESULT_OK, Some s', w')
       /\ status s' = AUTHENTICATION_STATUS_STARTED
       /\ cbs_handle (cbs_state s') = Some 7%nat
       /\ on_status_changed_callback s' = Some 3%nat
       /\ on_status_changed_context s' = 8%nat.
Proof.
  split; [ reflexivity | ].
  apply (start_moves_any_status_to_started
           (sample_state device_sas_token_credential
              AUTHENTICATION_STATUS_AUTHENTICATED)
           initial_world (Some 7%nat) (Some 3%nat) 8%nat).
  reflexivity.
Defined.

(** C9 as stated fails: a record whose status is [FAILED], neither [NONE]
    nor [IDLE], is moved to [STARTED] by [authentication_start], and the
    observer is told so. *)
Lemma start_from_failed_reaches_started :
  status (sample_state device_key_credential AUTHENTICATION_STATUS_FAILED)
    <> AUTHENTICATION_STATUS_NONE
  /\ status (sample_state device_key_credential AUTHENTICATION_STATUS_FAILED)
       <> AUTHENTICATION_STATUS_IDLE
  /\ authentication_start
       (Some (sample_state device_key_credential AUTHENTICATION_STATUS_FAILED))
       (Some 7%nat) (Some 1%nat) 5%nat initial_world
     = (RESULT_OK,
        Some (sample_state device_key_credential AUTHENTICATION_STATUS_STARTED),
        log initial_world
          [Call_on_status_changed 1 5%nat AUTHENTICATION_STATUS_FAILED
             AUTHENTICATION_STATUS_STARTED]).
Proof. repeat split; discriminate. Qed.

(** ** [authentication_stop] *)

(** C2, as the code has it. On a live record with a CBS-bearing credential
    and status [FAILED], [authentication_stop] returns [RESULT_OK], leaves
    the status [IDLE] and the status observer cleared, and calls nothing
    but that observer (told of [FAILED] to [IDLE] before it is cleared): the
    stop callback is neither stored nor called.  It returns an error and
    leaves record and world as they were when the credential is not
    CBS-bearing or the status is none of [FAILED], [AUTHENTICATED],
    [AUTHENTICATING] -- [FAILED_TIMEOUT] included -- and when the handle is
    [NULL].  From [AUTHENTICATED] or [AUTHENTICATING] it returns an error
    and changes neither record nor trace when the audience cannot be built;
    and when the audience is built and the CBS client refuses the delete
    request it returns an error with the stop callback cleared and the
    status [FAILED], the observer having been told of both changes; when
    the CBS client accepts it, the call returns [RESULT_OK] with the stop
    callback stored and the status [DEAUTHENTICATING].  These are all its
    errors: any error return either left record and trace alone or is the
    refused delete. *)
Theorem stop_outcomes :
  forall (env : Env) (s : AUTHENTICATION_STATE) (w : World)
         (on_stop_completed : callback) (context : context_ptr),
    (cbs_bearing (type (credential s)) = true ->
     status s = AUTHENTICATION_STATUS_FAILED ->
     authentication_stop env (Some s) on_stop_completed context w
     = (RESULT_OK,
        Some (set_on_status_changed (set_status s AUTHENTICATION_STATUS_IDLE)
                None NULL_context),
        match on_status_changed_callback s with
        | Some f =>
            log w [Call_on_status_changed f (on_status_changed_context s)
                     AUTHENTICATION_STATUS_FAILED AUTHENTICATION_STATUS_IDLE]
        | None => w
        end))
    /\ (cbs_bearing (type (credential s)) = false
        \/ (status s <> AUTHENTICATION_STATUS_FAILED
            /\ status s <> AUTHENTICATION_STATUS_AUTHENTICATED
            /\ status s <> AUTHENTICATION_STATUS_AUTHENTICATING) ->
        exists r, r <> RESULT_OK
          /\ authentication_stop env (Some s) on_stop_completed context w
             = (r, Some s, w))
    /\ (exists r, r <> RESULT_OK
          /\ authentication_stop env None on_stop_completed context w = (r, None, w))
    /\ (cbs_bearing (type (credential s)) = true ->
        stoppable (status s) = true ->
        iot_hub_host_fqdn s = None \/ device_id s = None
        \/ audience_built env w = false ->
        exists r w', r <> RESULT_OK
          /\ authentication_stop env (Some s) on_stop_completed context w
             = (r, Some s, w')
          /\ trace w' = trace w)
    /\ (forall host dev,
          cbs_bearing (type (credential s)) = true ->
          stoppable (status s) = true ->
          iot_hub_host_fqdn s = Some host ->
          device_id s = Some dev ->
          audience_built env w = true ->
          cbs_submit env (cbs_submissions w) <> RESULT_OK ->
          exists r, r <> RESULT_OK
            /\ authentication_stop env (Some s) on_stop_completed context w
               = (r,
                  Some (set_status (set_on_stop_completed s None NULL_context)
                          AUTHENTICATION_STATUS_FAILED),
                  later w 0 2 1
                    (notify s (status s) AUTHENTICATION_STATUS_DEAUTHENTICATING
                     ++ [Call_cbs_delete_token (cbs_handle (cbs_state s))
                           (Some (devices_path_text host dev))
                           (Some SAS_TOKEN_TYPE)]
                     ++ notify s AUTHENTICATION_STATUS_DEAUTHENTICATING
                          AUTHENTICATION_STATUS_FAILED)))
    /\ (forall host dev,
          cbs_bearing (type (credential s)) = true ->
          stoppable (status s) = true ->
          iot_hub_host_fqdn s = Some host ->
          device_id s = Some dev ->
          audience_built env w = true ->
          cbs_submit env (cbs_submissions w) = RESULT_OK ->
          authentication_stop env (Some s) on_stop_completed context w
          = (RESULT_OK,
             Some (set_status (set_on_stop_completed s on_stop_completed context)
                     AUTHENTICATION_STATUS_DEAUTHENTICATING),
             later w 0 2 1
               (notify s (status s) AUTHENTICATION_STATUS_DEAUTHENTICATING
                ++ [Call_cbs_delete_token (cbs_handle (cbs_state s))
                      (Some (devices_path_text host dev))
                      (Some SAS_TOKEN_TYPE)])))
    /\ (forall r h' w',
          authentication_stop env (Some s) on_stop_completed context w = (r, h', w') ->
          r <> RESULT_OK ->
          (h' = Some s /\ trace w' = trace w)
          \/ (exists s', h' = Some s'
                /\ status s' = AUTHENTICATION_STATUS_FAILED
                /\ on_stop_completed_callback s' = None
                /\ cbs_submit env (cbs_submissions w) <> RESULT_OK)).
Proof.
  intros env s w cb ctx.
  destruct s as [d h [ty k t ce p] cs st g x g' y].
  split; [ | split; [ | split; [ | split; [ | split; [ | split ] ] ] ] ].
  - cbn. intros Hc Hs. subst st. unfold_api. unfold_static. unfold_monad.
    destruct ty; try discriminate Hc; destruct g; cbn; try reflexivity;
      destruct w; reflexivity.
  - cbn. intros [Hc | (H1 & H2 & H3)].
    + unfold_api. unfold_static. unfold_monad.
      destruct ty; try discriminate Hc; cbn; eexists; (split; [ | reflexivity ]);
        discriminate.
    + unfold_api. unfold_static. unfold_monad.
      destruct ty, st; try congruence; cbn; eexists; (split; [ | reflexivity ]);
        discriminate.
  - exists 605. split; [ discriminate | reflexivity ].
  - cbn. intros Hc Hs Hf. unfold audience_built in Hf.
    unfold_api. unfold_static. unfold_monad.
    destruct ty; try discriminate Hc; destruct st; try discriminate Hs;
      destruct d as [dev | ], h as [host | ];
      try (destruct Hf as [Hf | [Hf | Hf]]; try discriminate Hf);
      repeat progress (cbn -[create_devices_path];
                       rewrite ?create_devices_path_eq,
                         ?create_devices_path_null by (first [ now left | now right ]));
      try (destruct (allocation env (allocations w)) eqn:A0; cbn in Hf;
           [ rewrite Hf | ]);
      cbn; eexists; eexists; (split; [ | split; reflexivity ]); discriminate.
  - intros host dev Hc Hs Hh Hd Ha Hr. cbn in Hc, Hs, Hh, Hd. subst d h.
    unfold audience_built in Ha. apply andb_true_iff in Ha. destruct Ha as [A0 A1].
    apply Z.eqb_neq in Hr.
    exists 650. split; [ discriminate | ].
    unfold_api. unfold_static. unfold_monad.
    destruct ty; try discriminate Hc; destruct st; try discriminate Hs;
      destruct g;
      repeat progress (cbn -[create_devices_path];
                       rewrite ?create_devices_path_eq, ?A0, ?A1, ?Hr);
      tidy_world; reflexivity.
  - intros host dev Hc Hs Hh Hd Ha Hr. cbn in Hc, Hs, Hh, Hd. subst d h.
    unfold audience_built in Ha. apply andb_true_iff in Ha. destruct Ha as [A0 A1].
    unfold_api. unfold_static. unfold_monad.
    destruct ty; try discriminate Hc; destruct st; try discriminate Hs;
      destruct g;
      repeat progress (cbn -[create_devices_path];
                       rewrite ?create_devices_path_eq, ?A0, ?A1, ?Hr);
      tidy_world; reflexivity.
  - unfold_api. unfold_static. unfold_monad. intros r h' w'.
    destruct ty, st, d, h; crunch; intros E Hr; inversion E; subst; clear E;
      try (exfalso; apply Hr; reflexivity);
      try (left; split; reflexivity);
      right; eexists; (split; [ reflexivity | ]); cbn;
      repeat split; try reflexivity;
      match goal with H : negb (?x =? _) = true |- _ =>
        apply negb_true_iff, Z.eqb_neq in H; exact H end.
Qed.

Lemma stop_outcomes_witness :
  authentication_stop sample_env
    (Some (sample_state device_key_credential AUTHENTICATION_STATUS_FAILED))
    (Some 2%nat) 9%nat initial_world
  = (RESULT_OK,
     Some (set_on_status_changed
             (sample_state device_key_credential AUTHENTICATION_STATUS_IDLE)
             None NULL_context),
     log initial_world
       [Call_on_status_changed 1 5%nat AUTHENTICATION_STATUS_FAILED
          AUTHENTICATION_STATUS_IDLE]).
Proof.
  apply (proj1 (stop_outcomes sample_env
                  (sample_state device_key_credential AUTHENTICATION_STATUS_FAILED)
                  initial_world (Some 2%nat) 9%nat));
    reflexivity.
Defined.

(** C2 as stated fails: with status [FAILED_TIMEOUT], a device key and a
    live record, [authentication_stop] returns its line number 629, not
    [RESULT_OK], and the status stays [FAILED_TIMEOUT]. *)
Lemma stop_from_failed_timeout_is_refused :
  cbs_bearing (type (credential
     (sample_state device_key_credential AUTHENTICATION_STATUS_FAILED_TIMEOUT))) = true
  /\ authentication_stop sample_env
       (Some (sample_state device_key_credential AUTHENTICATION_STATUS_FAILED_TIMEOUT))
       (Some 2%nat) 9%nat initial_world
     = (629,
        Some (sample_state device_key_credential AUTHENTICATION_STATUS_FAILED_TIMEOUT),
        initial_world)
  /\ 629 <> RESULT_OK
  /\ AUTHENTICATION_STATUS_FAILED_TIMEOUT <> AUTHENTICATION_STATUS_IDLE.
Proof. repeat split; discriminate. Qed.

(** ** [authentication_create] *)

Ltac unfold_create :=
  unfold authentication_create, authentication_create_fill,
    authentication_create_finish, STRING_construct, STRING_new, STRING_delete in *.

(** C3, as the code has it. A SAS token in the configuration decides the
    credential: with device id, host name and SAS token present and the
    five requests for memory granted, [authentication_create] returns a
    live record of type [DEVICE_SAS_TOKEN] holding that token, whether or
    not a device key is present as well (the key is not copied).  And it
    returns no live record when the configuration, the device id or the
    host name is missing, or when neither a device key nor a SAS token is
    present (an X.509 pair does not count). *)
Theorem create_selects_sas_token_first :
  forall (env : Env) (block : AUTHENTICATION_STATE) (w : World),
    (forall (config : Config.t) (id host token : string),
        Config.device_id config = Some id ->
        Config.iot_hub_host_fqdn config = Some host ->
        Config.device_sas_token config = Some token ->
        (forall n, (n < 5)%nat -> allocation env (allocations w + n) = true) ->
        exists s w',
          authentication_create env block (Some config) w = (returns_handle s, w')
          /\ type (credential s) = CREDENTIAL_TYPE_DEVICE_SAS_TOKEN
          /\ deviceSasToken (credential s) = Some token
          /\ deviceKey (credential s) = None
          /\ device_id s = Some id
          /\ iot_hub_host_fqdn s = Some host)
    /\ (forall (config : option Config.t),
          nothing_to_create config = true ->
          forall s, fst (authentication_create env block config w) <> returns_handle s).
Proof.
  intros env block w. split.
  - intros [i h k t c p] id host token Hi Hh Ht Ha. cbn in Hi, Hh, Ht. subst.
    assert (A0 : allocation env (allocations w) = true)
      by (rewrite <- (Ha 0%nat) by lia; f_equal; lia).
    assert (A1 : allocation env (S (allocations w)) = true)
      by (rewrite <- (Ha 1%nat) by lia; f_equal; lia).
    assert (A2 : allocation env (S (S (allocations w))) = true)
      by (rewrite <- (Ha 2%nat) by lia; f_equal; lia).
    assert (A3 : allocation env (S (S (S (allocations w)))) = true)
      by (rewrite <- (Ha 3%nat) by lia; f_equal; lia).
    assert (A4 : allocation env (S (S (S (S (allocations w))))) = true)
      by (rewrite <- (Ha 4%nat) by lia; f_equal; lia).
    unfold_create. unfold_monad. cbn.
    rewrite A0. cbn. rewrite A1. cbn. rewrite A2. cbn. rewrite A3. cbn.
    rewrite A4. cbn.
    eexists; eexists; repeat split; reflexivity.
  - intros [[i h k t c p] | ] H s; cbn in H.
    + unfold_create. unfold_monad.
      destruct i, h, k, t; try discriminate H; cbn;
        repeat (split_innermost; cbn); discriminate.
    + unfold_create. unfold_monad. cbn. discriminate.
Qed.

Lemma create_selects_sas_token_first_witness :
  (exists s w',
      authentication_create sample_env stale_block
        (Some (sample_config None (Some "SAS"))) initial_world
      = (returns_handle s, w')
      /\ type (credential s) = CREDENTIAL_TYPE_DEVICE_SAS_TOKEN
      /\ deviceSasToken (credential s) = Some "SAS"
      /\ deviceKey (credential s) = None
      /\ device_id s = Some "dev1"
      /\ iot_hub_host_fqdn s = Some "hub.example.net")
  /\ (forall s,
        fst (authentication_create sample_env stale_block
               (Some (sample_config None None)) initial_world)
        <> returns_handle s).
Proof.
  split.
  - apply (proj1 (create_selects_sas_token_first sample_env stale_block initial_world)
             (sample_config None (Some "SAS")) "dev1" "hub.example.net" "SAS");
      reflexivity.
  - apply (proj2 (create_selects_sas_token_first sample_env stale_block initial_world)
             (Some (sample_config None None))).
    reflexivity.
Defined.

(** C3 as stated fails: given both a device key and a SAS token,
    [authentication_create] does not fail; it returns a live record whose
    credential is the SAS token. *)
Lemma create_accepts_key_and_token_together :
  Config.device_key (sample_config (Some "KEY") (Some "SAS")) <> None
  /\ Config.device_sas_token (sample_config (Some "KEY") (Some "SAS")) <> None
  /\ exists s w,
       authentication_create sample_env stale_block
         (Some (sample_config (Some "KEY") (Some "SAS"))) initial_world
       = (returns_handle s, w)
       /\ type (credential s) = CREDENTIAL_TYPE_DEVICE_SAS_TOKEN
       /\ deviceSasToken (credential s) = Some "SAS".
Proof.
  split; [ discriminate | split; [ discriminate | ] ].
  eexists; eexists; repeat split; reflexivity.
Qed.

(** C5, as the code has it. Every live record [authentication_create]
    returns has status [NONE], a CBS-bearing credential, an empty, non-null
    [sasTokenKeyName] and a creation time of 0.  The put time is not
    written: it is whatever the block of memory held. *)
Theorem created_record_is_initialised :
  forall (env : Env) (block : AUTHENTICATION_STATE) (config : option Config.t)
         (w : World) (s : AUTHENTICATION_STATE),
    fst (authentication_create env block config w) = returns_handle s ->
    status s = AUTHENTICATION_STATUS_NONE
    /\ cbs_bearing (type (credential s)) = true
    /\ sasTokenKeyName (cbs_state s) = Some ""
    /\ current_sas_token_create_time (cbs_state s) = 0
    /\ current_sas_token_put_time (cbs_state s)
       = current_sas_token_put_time (cbs_state block).
Proof.
  intros env block [[i h k t c p] | ] w s; unfold_create; unfold_monad.
  - destruct i, h, k, t; cbn; repeat (split_innermost; cbn);
      intro E; try discriminate E; inversion E; subst; cbn; repeat split; reflexivity.
  - cbn. discriminate.
Qed.

Lemma created_record_is_initialised_witness :
  fst (authentication_create sample_env stale_block
         (Some (sample_config (Some "KEY") None)) initial_world)
  = returns_handle created_from_stale_block
  /\ status created_from_stale_block = AUTHENTICATION_STATUS_NONE
  /\ cbs_bearing (type (credential created_from_stale_block)) = true
  /\ sasTokenKeyName (cbs_state created_from_stale_block) = Some ""
  /\ current_sas_token_create_time (cbs_state created_from_stale_block) = 0
  /\ current_sas_token_put_time (cbs_state created_from_stale_block)
     = current_sas_token_put_time (cbs_state stale_block).
Proof.
  split; [ reflexivity | ].
  apply (created_record_is_initialised sample_env stale_block
           (Some (sample_config (Some "KEY") None)) initial_world
           created_from_stale_block).
  reflexivity.
Defined.

(** C5 as stated fails: on a block whose put time held 42, the record
    returned for a device key still has put time 42, not 0. *)
Lemma create_leaves_put_time_unset :
  exists s w,
    authentication_create sample_env stale_block
      (Some (sample_config (Some "KEY") None)) initial_world
    = (returns_handle s, w)
    /\ current_sas_token_put_time (cbs_state s) = 42
    /\ current_sas_token_put_time (cbs_state s) <> 0.
Proof.
  eexists; eexists; split; [ reflexivity | split; [ reflexivity | discriminate ] ].
Qed.

(** C10, on the code: it does not hold. Whenever the record was never
    allocated -- no configuration, no device id, no host name, or [malloc]
    refused -- [cleanup_required] is still [true] and the cleanup reads
    [auth_state->credential.data.deviceKey] through the [NULL] pointer
    before it ever tests [auth_state != NULL]; the call does not get to
    return [NULL]. *)
Theorem create_cleanup_reads_through_null :
  forall (env : Env) (block : AUTHENTICATION_STATE) (config : option Config.t)
         (w : World),
    record_never_allocated env config w = true ->
    fst (authentication_create env block config w) = null_dereference.
Proof.
  intros env block [[i h k t c p] | ] w H; unfold_create; unfold_monad; cbn in *.
  - destruct i, h; cbn; try reflexivity. rewrite H. reflexivity.
  - reflexivity.
Qed.

Lemma create_cleanup_reads_through_null_witness :
  record_never_allocated sample_env None initial_world = true
  /\ fst (authentication_create sample_env stale_block None initial_world)
     = null_dereference.
Proof.
  split; [ reflexivity | ].
  apply (create_cleanup_reads_through_null sample_env stale_block None initial_world).
  reflexivity.
Defined.

(** No path of [authentication_create] returns [NULL]: a failure before
    the record exists ends in the read through [NULL], a failure after it
    returns the address of the record the cleanup has just released. *)
Lemma create_never_returns_NULL :
  forall (env : Env) (block : AUTHENTICATION_STATE) (config : option Config.t)
         (w : World),
    fst (authentication_create env block config w) <> returns_NULL.
Proof.
  intros env block [[i h k t c p] | ] w; unfold_create; unfold_monad.
  - destruct i, h, k, t; cbn; repeat (split_innermost; cbn); discriminate.
  - cbn. discriminate.
Qed.

(** ** [authenticate_device] *)

(** C7, as the code has it. On a record with host name and device id, once
    the clock has been read: with a device key, if the audience or the SAS
    token cannot be constructed, [authenticate_device] returns an error and
    the record is exactly as before; with a SAS token the status is moved
    to [AUTHENTICATING] before the audience is built, and if the audience
    cannot be constructed the call returns an error and the status is
    [FAILED].  A call that turns a status other than [FAILED] into [FAILED]
    has either had its submission refused by the CBS client or is this
    SAS-token path. *)
Theorem authenticate_device_construction_failures :
  forall (env : Env) (s : AUTHENTICATION_STATE) (w : World) (host dev : string),
    iot_hub_host_fqdn s = Some host ->
    device_id s = Some dev ->
    (forall now,
        get_time env (clock_reads w) = Some now ->
        type (credential s) = CREDENTIAL_TYPE_DEVICE_KEY ->
        audience_built env w && token_built env s w = false ->
        exists r w', authenticate_device env s w = (r, s, w') /\ r <> RESULT_OK)
    /\ (forall now,
          get_time env (clock_reads w) = Some now ->
          type (credential s) = CREDENTIAL_TYPE_DEVICE_SAS_TOKEN ->
          audience_built env w = false ->
          exists r w',
            authenticate_device env s w
              = (r, set_status s AUTHENTICATION_STATUS_FAILED, w')
            /\ r <> RESULT_OK)
    /\ (forall r s' w',
          authenticate_device env s w = (r, s', w') ->
          status s <> AUTHENTICATION_STATUS_FAILED ->
          status s' = AUTHENTICATION_STATUS_FAILED ->
          cbs_submit env (cbs_submissions w) <> RESULT_OK
          \/ (type (credential s) = CREDENTIAL_TYPE_DEVICE_SAS_TOKEN
              /\ audience_built env w = false)).
Proof.
  intros env s w host dev Hh Hd.
  destruct s as [d h [ty k t ce p] [l rf to cb kn ct pt] st g x g' y].
  cbn in Hh, Hd. subst. unfold audience_built, token_built. cbn.
  repeat split.
  - intros now Hn Ht Hf. subst ty. unfold_static. unfold_monad.
    cbn -[create_devices_path]. rewrite Hn.
    crunch;
      repeat match goal with
             | H : allocation _ _ = _ |- _ => rewrite H in Hf; clear H
             end; cbn in Hf; try discriminate Hf;
      eexists; eexists; (split; [ reflexivity | discriminate ]).
  - intros now Hn Ht Hf. subst ty. unfold_static. unfold_monad.
    cbn -[create_devices_path]. rewrite Hn.
    destruct st; crunch;
      repeat match goal with
             | H : allocation _ _ = _ |- _ => rewrite H in Hf; clear H
             end; cbn in Hf; try discriminate Hf;
      eexists; eexists; (split; [ reflexivity | discriminate ]).
  - unfold_static. unfold_monad. intros r s' w'.
    destruct ty, st; crunch; intros E Hs Hs'; inversion E; subst; clear E;
      cbn in Hs'; try discriminate Hs'; try (exfalso; apply Hs; reflexivity);
      try (right; split;
           [ reflexivity
           | repeat match goal with
                    | H : allocation _ _ = _ |- _ => rewrite H; clear H
                    end; reflexivity ]);
      left;
      match goal with H : negb (?x =? _) = true |- _ =>
        apply negb_true_iff, Z.eqb_neq in H; exact H end.
Qed.

Lemma authenticate_device_construction_failures_witness :
  iot_hub_host_fqdn (sample_state device_key_credential AUTHENTICATION_STATUS_STARTED)
    = Some "hub.example.net"
  /\ device_id (sample_state device_key_credential AUTHENTICATION_STATUS_STARTED)
     = Some "dev1"
  /\ exists r w',
       authenticate_device exhausted_env
         (sample_state device_key_credential AUTHENTICATION_STATUS_STARTED)
         initial_world
       = (r, sample_state device_key_credential AUTHENTICATION_STATUS_STARTED, w')
       /\ r <> RESULT_OK.
Proof.
  split; [ reflexivity | split; [ reflexivity | ] ].
  apply (proj1 (authenticate_device_construction_failures exhausted_env
                  (sample_state device_key_credential AUTHENTICATION_STATUS_STARTED)
                  initial_world "hub.example.net" "dev1" eq_refl eq_refl) 100);
    reflexivity.
Defined.

(** C7 as stated fails: with a SAS token, a started record and no memory
    for the audience, [authenticate_device] returns its line number 325 and
    the status is [FAILED], not [STARTED]; nothing was submitted to the CBS
    client. *)
Lemma sas_token_audience_failure_sets_failed :
  authenticate_device exhausted_env
    (sample_state device_sas_token_credential AUTHENTICATION_STATUS_STARTED)
    initial_world
  = (325,
     sample_state device_sas_token_credential AUTHENTICATION_STATUS_FAILED,
     allocation_tick
       (log (clock_tick initial_world)
          [Call_on_status_changed 1 5%nat AUTHENTICATION_STATUS_STARTED
             AUTHENTICATION_STATUS_AUTHENTICATING;
           Call_on_status_changed 1 5%nat AUTHENTICATION_STATUS_AUTHENTICATING
             AUTHENTICATION_STATUS_FAILED]))
  /\ AUTHENTICATION_STATUS_FAILED <> AUTHENTICATION_STATUS_STARTED.
Proof. split; [ reflexivity | discriminate ]. Qed.

(** ** [authentication_set_option] *)

(** C4, as the code has it. [authentication_set_option] applies nothing:
    for every handle, name and value it leaves the record and the world as
    they were, and it returns an error code when the handle or the name is
    [NULL]. *)
Theorem set_option_changes_nothing :
  forall (result0 : Z) (h : AUTHENTICATION_HANDLE) (name : c_string)
         (value : option Z) (w : World),
    exists r,
      authentication_set_option result0 h name value w = (r, h, w)
      /\ (h = None \/ name = None -> r <> RESULT_OK).
Proof.
  intros result0 [s | ] [n | ] value w; cbn; eexists;
    (split; [ reflexivity | ]); intros [H | H]; discriminate.
Qed.

(** C4 as stated fails: setting [sas_token_lifetime] to 5000 leaves the
    lifetime of the record at 3600000. *)
Lemma set_option_does_not_store_lifetime :
  exists r s',
    authentication_set_option RESULT_OK
      (Some (sample_state device_key_credential AUTHENTICATION_STATUS_STARTED))
      (Some "sas_token_lifetime") (Some 5000) initial_world
    = (r, Some s', initial_world)
    /\ sas_token_lifetime (cbs_state s') = 3600000
    /\ sas_token_lifetime (cbs_state s') <> 5000.
Proof.
  eexists; eexists; split; [ reflexivity | split; [ reflexivity | discriminate ] ].
Qed.

(** ** [authentication_do_work] *)

(** C6, on the code: the first half holds, the second does not. A tick
    that finds nothing to do leaves the record as it was and calls nobody,
    but what it returns is the local [result] as it was before any
    assignment, [result0], which need not be [RESULT_OK]. *)
Theorem idle_tick_returns_unassigned_result :
  forall (env : Env) (result0 : Z) (s : AUTHENTICATION_STATE) (w : World),
    idle_tick env s w = true ->
    exists w',
      authentication_do_work env result0 (Some s) w = (result0, Some s, w')
      /\ trace w' = trace w.
Proof.
  intros env result0 s w H.
  destruct s as [d h [ty k t ce p] [l rf to cb kn ct pt] st g x g' y].
  unfold idle_tick, refresh_due in H. cbn in H.
  unfold_api. unfold_static. unfold_monad.
  destruct st, ty; try discriminate H; cbn;
    try (eexists; split; reflexivity).
  destruct (get_time env (clock_reads w)) as [now | ]; [ | discriminate H ].
  apply negb_true_iff in H. rewrite H. cbn.
  eexists; split; reflexivity.
Qed.

Lemma idle_tick_returns_unassigned_result_witness :
  idle_tick sample_env
    (sample_state device_key_credential AUTHENTICATION_STATUS_FAILED)
    initial_world = true
  /\ (exists w',
        authentication_do_work sample_env 1
          (Some (sample_state device_key_credential AUTHENTICATION_STATUS_FAILED))
          initial_world
        = (1, Some (sample_state device_key_credential AUTHENTICATION_STATUS_FAILED), w')
        /\ trace w' = trace initial_world)
  /\ 1 <> RESULT_OK.
Proof.
  split; [ reflexivity | split; [ | discriminate ] ].
  apply (idle_tick_returns_unassigned_result sample_env 1
           (sample_state device_key_credential AUTHENTICATION_STATUS_FAILED)
           initial_world).
  reflexivity.
Defined.

(** ** Every operation and the observer *)

Ltac settle_trace :=
  first [ exists []; split; [ symmetry; apply app_nil_r | ]
        | rewrite <- ?app_assoc; eexists; split; [ reflexivity | ] ];
  (split; [ reflexivity | intro; first [ reflexivity | discriminate ] ]).

(** Whatever is done to a live record, the calls of the status observer it
    causes are, in order, exactly the changes the status went through: each
    names a status and a different one that followed it, the first starts
    at the status before the operation and the last ends at the status
    after it.  Without an observer nothing is called, and an operation
    that leaves the status where it was calls no observer. *)
Theorem status_changes_reach_the_observer :
  forall (env : Env) (op : Operation) (s : AUTHENTICATION_STATE) (w : World),
    exists evs,
      trace (snd (perform env op s w)) = trace w ++ evs
      /\ match observer_during op s with
         | Some _ =>
             leads (status s) (notifications evs) (status (fst (perform env op s w)))
             = true
         | None => notifications evs = []
         end
      /\ (status (fst (perform env op s w)) = status s -> notifications evs = []).
Proof.
  intros env op s w.
  destruct s as [d h [ty k t ce p] [l rf to cb kn ct pt] st g x g' y].
  destruct op as [cbs f c | r0 | f c | r0 n v | r | r];
    unfold perform, landed, observer_during, start_refused.
  - unfold_api. unfold_static. unfold_monad.
    destruct ty, cbs, f, g, st; cbn; settle_trace.
  - unfold_api. unfold_static. unfold_monad.
    destruct ty, g, st, d, h; crunch; settle_trace.
  - unfold_api. unfold_static. unfold_monad.
    destruct ty, g, st, d, h; crunch; settle_trace.
  - destruct n, g, st; cbn; settle_trace.
  - unfold_static. unfold_monad. destruct r, g, st; cbn; settle_trace.
  - unfold_static. unfold_monad. destruct r, g, g', st; cbn; settle_trace.
Qed.

Ltac settle_calls_chain :=
  first [ exists []; split; [ symmetry; apply app_nil_r | ]
        | rewrite <- ?app_assoc; eexists; split; [ reflexivity | ] ];
  cbn; repeat split; try reflexivity; intro; first [ reflexivity | discriminate ].

(** C8, as the code has it. Every change of status goes through
    [update_status]: asked for a status other than the present one, it
    stores it and calls a registered observer exactly once, with its
    context, the old and the new status; asked for the present status, it
    calls nothing and changes nothing.  An operation may change the status
    more than once, so for every public operation and every completion on
    a live record the calls of the status observer are, in order, one call
    per change of status the operation made, each to the observer in place
    with its context, each naming a status and a different one that
    followed it, the first starting at the status before the operation and
    the last ending at the status after it.  Without an observer nothing
    is called, and an operation that leaves the status equal to what it
    was calls no observer. *)
Theorem observer_calls_follow_the_status :
  (forall (s : AUTHENTICATION_STATE) (w : World) (new_status : AUTHENTICATION_STATUS),
      (status s <> new_status ->
       (forall f, on_status_changed_callback s = Some f ->
          update_status new_status s w =
            (tt, set_status s new_status,
             log w [Call_on_status_changed f (on_status_changed_context s)
                      (status s) new_status]))
       /\ (on_status_changed_callback s = None ->
           update_status new_status s w = (tt, set_status s new_status, w)))
      /\ (status s = new_status -> update_status new_status s w = (tt, s, w)))
  /\ (forall (env : Env) (op : Operation) (s : AUTHENTICATION_STATE) (w : World),
        exists evs,
          trace (snd (perform env op s w)) = trace w ++ evs
          /\ match observer_during op s with
             | Some f =>
                 observer_calls evs
                 = calls_for f (context_during op s) (notifications evs)
                 /\ leads (status s) (notifications evs)
                      (status (fst (perform env op s w))) = true
             | None => observer_calls evs = []
             end
          /\ (status (fst (perform env op s w)) = status s ->
              observer_calls evs = [])).
Proof.
  split; [ exact update_status_observer | ].
  intros env op s w.
  destruct s as [d h [ty k t ce p] [l rf to cb kn ct pt] st g x g' y].
  destruct op as [cbs f c | r0 | f c | r0 n v | r | r];
    unfold perform, landed, observer_during, context_during, calls_for, start_refused.
  - unfold_api. unfold_static. unfold_monad.
    destruct ty, cbs, f, g, st; cbn; settle_calls_chain.
  - unfold_api. unfold_static. unfold_monad.
    destruct ty, g, st, d, h; crunch; settle_calls_chain.
  - unfold_api. unfold_static. unfold_monad.
    destruct ty, g, st, d, h; crunch; settle_calls_chain.
  - destruct n, g, st; cbn; settle_calls_chain.
  - unfold_static. unfold_monad. destruct r, g, st; cbn; settle_calls_chain.
  - unfold_static. unfold_monad. destruct r, g, g', st; cbn; settle_calls_chain.
Qed.

Lemma observer_calls_follow_the_status_witness :
  update_status AUTHENTICATION_STATUS_AUTHENTICATED
    (sample_state device_key_credential AUTHENTICATION_STATUS_AUTHENTICATING)
    initial_world
  = (tt,
     sample_state device_key_credential AUTHENTICATION_STATUS_AUTHENTICATED,
     log initial_world
       [Call_on_status_changed 1 5%nat AUTHENTICATION_STATUS_AUTHENTICATING
          AUTHENTICATION_STATUS_AUTHENTICATED])
  /\ update_status AUTHENTICATION_STATUS_AUTHENTICATING
       (sample_state device_key_credential AUTHENTICATION_STATUS_AUTHENTICATING)
       initial_world
     = (tt,
        sample_state device_key_credential AUTHENTICATION_STATUS_AUTHENTICATING,
        initial_world).
Proof.
  split.
  - apply (proj1 (proj1 (proj1 observer_calls_follow_the_status
                           (sample_state device_key_credential
                              AUTHENTICATION_STATUS_AUTHENTICATING)
                           initial_world AUTHENTICATION_STATUS_AUTHENTICATED)
                    ltac:(discriminate)) 1%nat).
    reflexivity.
  - apply (proj2 (proj1 observer_calls_follow_the_status
                    (sample_state device_key_credential
                       AUTHENTICATION_STATUS_AUTHENTICATING)
                    initial_world AUTHENTICATION_STATUS_AUTHENTICATING)).
    reflexivity.
Defined.

(** C8 as stated fails: one tick on an authenticated record whose token is
    due changes the status from [AUTHENTICATED] to [AUTHENTICATING] and
    calls the observer twice, once for [AUTHENTICATED] to [REFRESHING] and
    once for [REFRESHING] to [AUTHENTICATING], and never with the pair
    [AUTHENTICATED], [AUTHENTICATING]. *)
Lemma one_tick_calls_the_observer_twice :
  status refresh_due_state = AUTHENTICATION_STATUS_AUTHENTICATED
  /\ status (fst (perform sample_env (Do_work 0) refresh_due_state initial_world))
     = AUTHENTICATION_STATUS_AUTHENTICATING
  /\ observer_calls
       (trace (snd (perform sample_env (Do_work 0) refresh_due_state initial_world)))
     = [Call_on_status_changed 1 5%nat AUTHENTICATION_STATUS_AUTHENTICATED
          AUTHENTICATION_STATUS_REFRESHING;
        Call_on_status_changed 1 5%nat AUTHENTICATION_STATUS_REFRESHING
          AUTHENTICATION_STATUS_AUTHENTICATING]
  /\ ~ In (Call_on_status_changed 1 5%nat AUTHENTICATION_STATUS_AUTHENTICATED
             AUTHENTICATION_STATUS_AUTHENTICATING)
          (trace (snd (perform sample_env (Do_work 0) refresh_due_state
                         initial_world))).
Proof.
  split; [ reflexivity | split; [ reflexivity | split; [ reflexivity | ] ] ].
  vm_compute. intro H.
  repeat (destruct H as [H | H]; [ discriminate H | ]). exact H.
Qed.

(** The refresh scenario: a tick on an authenticated DeviceKey record whose
    token is due tells the observer of [AUTHENTICATED] to [REFRESHING] and
    of [REFRESHING] to [AUTHENTICATING], in that order. *)
Example refresh_tick_notifications :
  notifications
    (trace (snd (perform sample_env (Do_work 0)
                   (set_cbs_state
                      (sample_state device_key_credential
                         AUTHENTICATION_STATUS_AUTHENTICATED)
                      {| sas_token_lifetime := 2000; sas_token_refresh_time := 1000;
                         cbs_request_timeout := 30000; cbs_handle := Some 7%nat;
                         sasTokenKeyName := Some "";
                         current_sas_token_create_time := 99;
                         current_sas_token_put_time := 99 |})
                   initial_world)))
  = [(AUTHENTICATION_STATUS_AUTHENTICATED, AUTHENTICATION_STATUS_REFRESHING);
     (AUTHENTICATION_STATUS_REFRESHING, AUTHENTICATION_STATUS_AUTHENTICATING)].
Proof. reflexivity. Qed.

(** ** Beyond the claims: the tick *)

(** The [size_t] expression of the timeout test, in integers. *)
Lemma timeout_expression (now put : Z) :
  size_mul (size_sub now put) 1000 = ((now - put) * 1000) mod SIZE_MAX_plus_1.
Proof.
  unfold size_mul, size_sub. apply Z.mul_mod_idemp_l. unfold SIZE_MAX_plus_1. lia.
Qed.

(** X2. A tick on a live record returns 499 and changes nothing when the
    status is [NONE] or [IDLE]; otherwise it returns 518 or the unassigned
    [result0].  The status it leaves is the one it found or one of: from
    [STARTED] or [REFRESHING], [AUTHENTICATING] or [FAILED]; from
    [AUTHENTICATING], [FAILED] or [FAILED_TIMEOUT]; from [AUTHENTICATED],
    [REFRESHING], [AUTHENTICATING] or [FAILED].  [FAILED], [FAILED_TIMEOUT],
    [DEAUTHENTICATING], [NONE] and [IDLE] are never left by a tick. *)
Theorem tick_result_and_status_step :
  forall (env : Env) (result0 : Z) (s : AUTHENTICATION_STATE) (w : World),
    exists r s' w',
      authentication_do_work env result0 (Some s) w = (r, Some s', w')
      /\ tick_step (status s) (status s') = true
      /\ (if not_started (status s)
          then r = 499 /\ s' = s /\ w' = w
          else r = 518 \/ r = result0).
Proof.
  intros env result0 s w.
  destruct s as [d h [ty k t ce p] [l rf to cb kn ct pt] st g x g' y].
  unfold_api. unfold_static. unfold_monad.
  destruct ty, st, d, h; crunch;
    (eexists; eexists; eexists; split; [ reflexivity | ]); cbn;
    (split; [ reflexivity | ]);
    first [ split; [ reflexivity | split; reflexivity ]
          | left; reflexivity
          | right; reflexivity ].
Qed.

(** X3. A tick in status [AUTHENTICATING] reads the clock once.  If the
    clock cannot be read the status becomes [FAILED].  If it reads [now]
    and [(now - put time) * 1000] is a [size_t] value, the status becomes
    [FAILED_TIMEOUT] exactly when that product is at least
    [cbs_request_timeout], the observer being told, and nothing changes
    otherwise.  Either way the tick returns [result0]. *)
Theorem tick_checks_the_put_deadline :
  forall (env : Env) (result0 : Z) (s : AUTHENTICATION_STATE) (w : World),
    status s = AUTHENTICATION_STATUS_AUTHENTICATING ->
    (get_time env (clock_reads w) = None ->
     authentication_do_work env result0 (Some s) w
     = (result0, Some (set_status s AUTHENTICATION_STATUS_FAILED),
        later w 1 0 0
          (notify s AUTHENTICATION_STATUS_AUTHENTICATING AUTHENTICATION_STATUS_FAILED)))
    /\ (forall now,
          get_time env (clock_reads w) = Some now ->
          0 <= (now - current_sas_token_put_time (cbs_state s)) * 1000
            < SIZE_MAX_plus_1 ->
          authentication_do_work env result0 (Some s) w
          = if (now - current_sas_token_put_time (cbs_state s)) * 1000
               >=? cbs_request_timeout (cbs_state s)
            then (result0, Some (set_status s AUTHENTICATION_STATUS_FAILED_TIMEOUT),
                  later w 1 0 0
                    (notify s AUTHENTICATION_STATUS_AUTHENTICATING
                       AUTHENTICATION_STATUS_FAILED_TIMEOUT))
            else (result0, Some s, later w 1 0 0 [])).
Proof.
  intros env result0 s w Hs.
  destruct s as [d h [ty k t ce p] [l rf to cb kn ct pt] st g x g' y].
  cbn in Hs. subst st. split.
  - intro Hn. unfold_api. unfold_static. unfold_monad. cbn. rewrite Hn.
    destruct g; cbn; tidy_world; reflexivity.
  - intros now Hn Hr.
    cbn [cbs_state current_sas_token_put_time cbs_request_timeout] in Hr |- *.
    unfold_api. unfold_static. unfold_monad.
    cbn -[size_mul size_sub]. rewrite Hn. cbn -[size_mul size_sub].
    rewrite timeout_expression, (Z.mod_small _ _ Hr).
    destruct ((now - pt) * 1000 >=? to); destruct g; cbn; tidy_world; reflexivity.
Qed.

Lemma tick_checks_the_put_deadline_witness :
  status (sample_state device_key_credential AUTHENTICATION_STATUS_AUTHENTICATING)
    = AUTHENTICATION_STATUS_AUTHENTICATING
  /\ authentication_do_work sample_env 0
       (Some (sample_state device_key_credential AUTHENTICATION_STATUS_AUTHENTICATING))
       initial_world
     = (0,
        Some (sample_state device_key_credential AUTHENTICATION_STATUS_FAILED_TIMEOUT),
        later initial_world 1 0 0
          [Call_on_status_changed 1 5%nat AUTHENTICATION_STATUS_AUTHENTICATING
             AUTHENTICATION_STATUS_FAILED_TIMEOUT]).
Proof.
  split; [ reflexivity | ].
  apply (proj2 (tick_checks_the_put_deadline sample_env 0
                  (sample_state device_key_credential
                     AUTHENTICATION_STATUS_AUTHENTICATING)
                  initial_world eq_refl) 100 eq_refl).
  vm_compute. split; [ intro H; discriminate H | reflexivity ].
Defined.

(** X4. The subtraction of the timeout test is unsigned: when the clock
    reads [behind] seconds less than the recorded put time, the elapsed
    time wraps around, and for every [cbs_request_timeout] up to
    [2^64 - 1000 * behind] the tick declares the put timed out. *)
Theorem tick_times_out_when_the_clock_steps_back :
  forall (env : Env) (result0 : Z) (s : AUTHENTICATION_STATE) (w : World)
         (now behind : Z),
    status s = AUTHENTICATION_STATUS_AUTHENTICATING ->
    get_time env (clock_reads w) = Some now ->
    current_sas_token_put_time (cbs_state s) = now + behind ->
    0 < behind ->
    cbs_request_timeout (cbs_state s) <= SIZE_MAX_plus_1 - behind * 1000 ->
    0 < SIZE_MAX_plus_1 - behind * 1000 ->
    authentication_do_work env result0 (Some s) w
    = (result0, Some (set_status s AUTHENTICATION_STATUS_FAILED_TIMEOUT),
       later w 1 0 0
         (notify s AUTHENTICATION_STATUS_AUTHENTICATING
            AUTHENTICATION_STATUS_FAILED_TIMEOUT)).
Proof.
  intros env result0 s w now behind Hs Hn Hp Hb Ht Hm.
  destruct s as [d h [ty k t ce p] [l rf to cb kn ct pt] st g x g' y].
  cbn [status cbs_state current_sas_token_put_time cbs_request_timeout] in Hs, Hp, Ht.
  subst st pt.
  unfold_api. unfold_static. unfold_monad.
  cbn -[size_mul size_sub]. rewrite Hn. cbn -[size_mul size_sub].
  rewrite timeout_expression.
  assert (E : ((now - (now + behind)) * 1000) mod SIZE_MAX_plus_1
              = SIZE_MAX_plus_1 - behind * 1000).
  { symmetry. apply (Z.mod_unique _ _ (-1)); [ left; lia | lia ]. }
  rewrite E.
  replace (SIZE_MAX_plus_1 - behind * 1000 >=? to) with true
    by (symmetry; apply Z.geb_le; lia).
  destruct g; cbn; tidy_world; reflexivity.
Qed.

Lemma tick_times_out_when_the_clock_steps_back_witness :
  authentication_do_work sample_env 0 (Some put_ahead_state) initial_world
  = (0, Some (set_status put_ahead_state AUTHENTICATION_STATUS_FAILED_TIMEOUT),
     later initial_world 1 0 0
       (notify put_ahead_state AUTHENTICATION_STATUS_AUTHENTICATING
          AUTHENTICATION_STATUS_FAILED_TIMEOUT)).
Proof.
  apply (tick_times_out_when_the_clock_steps_back sample_env 0 put_ahead_state
           initial_world 100 1);
    first [ reflexivity | vm_compute; intro H; discriminate H ].
Defined.

(** X5. When the clock cannot be read, a tick on a started or refreshing
    record with a CBS-bearing credential returns 518 and leaves record and
    trace as they were: the status is not moved to [FAILED], so the next
    tick tries again. *)
Theorem tick_retries_after_a_clock_failure :
  forall (env : Env) (result0 : Z) (s : AUTHENTICATION_STATE) (w : World),
    status s = AUTHENTICATION_STATUS_STARTED
    \/ status s = AUTHENTICATION_STATUS_REFRESHING ->
    cbs_bearing (type (credential s)) = true ->
    get_time env (clock_reads w) = None ->
    authentication_do_work env result0 (Some s) w = (518, Some s, later w 1 0 0 []).
Proof.
  intros env result0 s w Hs Hc Hn.
  destruct s as [d h [ty k t ce p] [l rf to cb kn ct pt] st g x g' y].
  cbn in Hs, Hc.
  unfold_api. unfold_static. unfold_monad.
  destruct Hs; subst st; destruct ty; try discriminate Hc; cbn; rewrite Hn; cbn;
    tidy_world; reflexivity.
Qed.

Lemma tick_retries_after_a_clock_failure_witness :
  authentication_do_work clockless_env 0
    (Some (sample_state device_key_credential AUTHENTICATION_STATUS_STARTED))
    initial_world
  = (518, Some (sample_state device_key_credential AUTHENTICATION_STATUS_STARTED),
     later initial_world 1 0 0 []).
Proof.
  apply (tick_retries_after_a_clock_failure clockless_env 0
           (sample_state device_key_credential AUTHENTICATION_STATUS_STARTED)
           initial_world);
    [ left; reflexivity | reflexivity | reflexivity ].
Defined.

(** X6. A tick on an authenticated DeviceKey record whose token is due --
    the clock reads [now], [now - create time] is a [size_t] value and at
    least [sas_token_refresh_time / 1000] -- goes through [REFRESHING] and
    authenticates again within the same tick: with memory and a willing
    CBS client it reads the clock a second time ([now']), submits one new
    token that expires at [now' + sas_token_lifetime / 1000], records
    [now'] as creation and put time, ends in [AUTHENTICATING] and has told
    the observer of both changes, in order. *)
Theorem tick_refreshes_a_due_token :
  forall (env : Env) (result0 : Z) (s : AUTHENTICATION_STATE) (w : World)
         (host dev key keyName : string) (now now' : Z),
    status s = AUTHENTICATION_STATUS_AUTHENTICATED ->
    type (credential s) = CREDENTIAL_TYPE_DEVICE_KEY ->
    iot_hub_host_fqdn s = Some host ->
    device_id s = Some dev ->
    deviceKey (credential s) = Some key ->
    sasTokenKeyName (cbs_state s) = Some keyName ->
    get_time env (clock_reads w) = Some now ->
    0 <= now - current_sas_token_create_time (cbs_state s) < SIZE_MAX_plus_1 ->
    sas_token_refresh_time (cbs_state s) / 1000
      <= now - current_sas_token_create_time (cbs_state s) ->
    get_time env (S (clock_reads w)) = Some now' ->
    audience_built env w = true ->
    allocation env (S (S (allocations w))) = true ->
    cbs_submit env (cbs_submissions w) = RESULT_OK ->
    authentication_do_work env result0 (Some s) w
    = (result0,
       Some (set_status
               (set_cbs_state s
                  (set_current_sas_token_put_time
                     (set_current_sas_token_create_time (cbs_state s) now') now'))
               AUTHENTICATION_STATUS_AUTHENTICATING),
       later w 2 3 1
         (notify s AUTHENTICATION_STATUS_AUTHENTICATED AUTHENTICATION_STATUS_REFRESHING
          ++ notify s AUTHENTICATION_STATUS_REFRESHING
               AUTHENTICATION_STATUS_AUTHENTICATING
          ++ [Call_cbs_put_token (cbs_handle (cbs_state s)) (Some SAS_TOKEN_TYPE)
                (Some (devices_path_text host dev))
                (Some (SASToken_text env key (devices_path_text host dev) keyName
                         (size_add now' (sas_token_lifetime (cbs_state s) / 1000))));
              Call_STRING_delete
                (SASToken_text env key (devices_path_text host dev) keyName
                   (size_add now' (sas_token_lifetime (cbs_state s) / 1000)));
              Call_STRING_delete (devices_path_text host dev)])).
Proof.
  intros env result0 s w host dev key keyName now now'
         Hs Ht Hh Hd Hk Hkn Hn Hr Hdue Hn' Ha A2 Hc.
  destruct s as [d h [ty k t ce p] [l rf to cb kn ct pt] st g x g' y].
  cbn [status type credential cbs_state iot_hub_host_fqdn device_id deviceKey
       sasTokenKeyName current_sas_token_create_time sas_token_refresh_time]
    in Hs, Ht, Hh, Hd, Hk, Hkn, Hr, Hdue.
  subst st ty d h k kn.
  unfold audience_built in Ha. apply andb_true_iff in Ha. destruct Ha as [A0 A1].
  assert (Due : (size_sub now ct >=? (rf / 1000)) = true).
  { unfold size_sub. rewrite (Z.mod_small _ _ Hr). apply Z.geb_le. lia. }
  unfold_api. unfold_static. unfold_monad.
  destruct g;
    repeat progress (cbn -[create_devices_path size_sub];
                     rewrite ?create_devices_path_eq, ?Hn, ?Hn', ?Due,
                       ?A0, ?A1, ?A2, ?Hc);
    tidy_world; reflexivity.
Qed.

Lemma tick_refreshes_a_due_token_witness :
  authentication_do_work sample_env 0 (Some refresh_due_state) initial_world
  = (0,
     Some (set_status
             (set_cbs_state refresh_due_state
                (set_current_sas_token_put_time
                   (set_current_sas_token_create_time (cbs_state refresh_due_state)
                      100) 100))
             AUTHENTICATION_STATUS_AUTHENTICATING),
     later initial_world 2 3 1
       [Call_on_status_changed 1 5%nat AUTHENTICATION_STATUS_AUTHENTICATED
          AUTHENTICATION_STATUS_REFRESHING;
        Call_on_status_changed 1 5%nat AUTHENTICATION_STATUS_REFRESHING
          AUTHENTICATION_STATUS_AUTHENTICATING;
        Call_cbs_put_token (Some 7%nat) (Some SAS_TOKEN_TYPE)
          (Some "hub.example.net/devices/dev1")
          (Some "sr=hub.example.net/devices/dev1");
        Call_STRING_delete "sr=hub.example.net/devices/dev1";
        Call_STRING_delete "hub.example.net/devices/dev1"]).
Proof.
  apply (tick_refreshes_a_due_token sample_env 0 refresh_due_state initial_world
           "hub.example.net" "dev1" "KEY" "" 100 100);
    first [ reflexivity
          | vm_compute; split; [ intro H; discriminate H | reflexivity ]
          | vm_compute; intro H; discriminate H ].
Defined.

(** ** Beyond the claims: dispatch, start and stop *)

(** X7. When [authenticate_device] gets as far as a submission the CBS
    client accepts, it returns [RESULT_OK], leaves the status
    [AUTHENTICATING] and the put time at the clock's reading, and submits
    exactly one token to the audience.  With a device key the token is the
    one [SASToken_Create] makes from key, audience, key name and
    [now + sas_token_lifetime / 1000] (in [size_t]), the creation time
    becomes [now], and token and audience are released afterwards.  With a
    SAS token the stored token is submitted as it is and not released, and
    the creation time is left alone. *)
Theorem authenticate_device_dispatch :
  forall (env : Env) (s : AUTHENTICATION_STATE) (w : World)
         (host dev : string) (now : Z),
    iot_hub_host_fqdn s = Some host ->
    device_id s = Some dev ->
    get_time env (clock_reads w) = Some now ->
    audience_built env w = true ->
    cbs_submit env (cbs_submissions w) = RESULT_OK ->
    (forall key keyName,
        type (credential s) = CREDENTIAL_TYPE_DEVICE_KEY ->
        deviceKey (credential s) = Some key ->
        sasTokenKeyName (cbs_state s) = Some keyName ->
        allocation env (S (S (allocations w))) = true ->
        authenticate_device env s w
        = (RESULT_OK,
           set_status
             (set_cbs_state s
                (set_current_sas_token_put_time
                   (set_current_sas_token_create_time (cbs_state s) now) now))
             AUTHENTICATION_STATUS_AUTHENTICATING,
           later w 1 3 1
             (notify s (status s) AUTHENTICATION_STATUS_AUTHENTICATING
              ++ [Call_cbs_put_token (cbs_handle (cbs_state s))
                    (Some SAS_TOKEN_TYPE)
                    (Some (devices_path_text host dev))
                    (Some (SASToken_text env key (devices_path_text host dev) keyName
                             (size_add now
                                (sas_token_lifetime (cbs_state s) / 1000))));
                  Call_STRING_delete
                    (SASToken_text env key (devices_path_text host dev) keyName
                       (size_add now (sas_token_lifetime (cbs_state s) / 1000)));
                  Call_STRING_delete (devices_path_text host dev)])))
    /\ (type (credential s) = CREDENTIAL_TYPE_DEVICE_SAS_TOKEN ->
        authenticate_device env s w
        = (RESULT_OK,
           set_status
             (set_cbs_state s
                (set_current_sas_token_put_time (cbs_state s) now))
             AUTHENTICATION_STATUS_AUTHENTICATING,
           later w 1 2 1
             (notify s (status s) AUTHENTICATION_STATUS_AUTHENTICATING
              ++ [Call_cbs_put_token (cbs_handle (cbs_state s))
                    (Some SAS_TOKEN_TYPE)
                    (Some (devices_path_text host dev))
                    (deviceSasToken (credential s));
                  Call_STRING_delete (devices_path_text host dev)]))).
Proof.
  intros env s w host dev now Hh Hd Hn Ha Hc.
  destruct s as [d h [ty k t ce p] [l rf to cb kn ct pt] st g x g' y].
  cbn in Hh, Hd. subst d h. unfold audience_built in Ha.
  apply andb_true_iff in Ha. destruct Ha as [A0 A1].
  unfold later, notify. split.
  - intros key keyName Ht Hk Hkn A2. cbn in Ht, Hk, Hkn. subst ty k kn.
    unfold_static. unfold_monad.
    destruct st, g;
      repeat progress (cbn -[create_devices_path];
                       rewrite ?create_devices_path_eq, ?Hn, ?A0, ?A1, ?A2, ?Hc);
      rewrite <- ?app_assoc; reflexivity.
  - intros Ht. cbn in Ht. subst ty.
    unfold_static. unfold_monad.
    destruct st, g;
      repeat progress (cbn -[create_devices_path];
                       rewrite ?create_devices_path_eq, ?Hn, ?A0, ?A1, ?Hc);
      rewrite <- ?app_assoc; reflexivity.
Qed.

Lemma authenticate_device_dispatch_witness :
  authenticate_device sample_env
    (sample_state device_sas_token_credential AUTHENTICATION_STATUS_STARTED)
    initial_world
  = (RESULT_OK,
     set_status
       (set_cbs_state
          (sample_state device_sas_token_credential AUTHENTICATION_STATUS_STARTED)
          (set_current_sas_token_put_time sample_cbs_state 100))
       AUTHENTICATION_STATUS_AUTHENTICATING,
     later initial_world 1 2 1
       [Call_on_status_changed 1 5%nat AUTHENTICATION_STATUS_STARTED
          AUTHENTICATION_STATUS_AUTHENTICATING;
        Call_cbs_put_token (Some 7%nat) (Some SAS_TOKEN_TYPE)
          (Some "hub.example.net/devices/dev1") (Some "SAS");
        Call_STRING_delete "hub.example.net/devices/dev1"]).
Proof.
  apply (proj2 (authenticate_device_dispatch sample_env
                  (sample_state device_sas_token_credential
                     AUTHENTICATION_STATUS_STARTED)
                  initial_world "hub.example.net" "dev1" 100
                  eq_refl eq_refl eq_refl eq_refl eq_refl)).
  reflexivity.
Defined.

(** X8. [authentication_start] on a live record either is refused -- a
    CBS-bearing credential without a CBS client: it returns 580 and changes
    nothing, the observer in place stays -- or returns [RESULT_OK] having
    stored the CBS client and the new observer and set the status to
    [STARTED]; the observer told of that change is the new one, never the
    one it replaces. *)
Theorem start_fails_only_without_a_cbs_client :
  forall (s : AUTHENTICATION_STATE) (w : World) (cbs : CBS_HANDLE)
         (on_status_changed : callback) (context : context_ptr),
    authentication_start (Some s) cbs on_status_changed context w
    = if start_refused s cbs
      then (580, Some s, w)
      else (RESULT_OK,
            Some (set_status
                    (set_on_status_changed
                       (set_cbs_state s (set_cbs_handle (cbs_state s) cbs))
                       on_status_changed context)
                    AUTHENTICATION_STATUS_STARTED),
            later w 0 0 0
              (notify (set_on_status_changed s on_status_changed context)
                 (status s) AUTHENTICATION_STATUS_STARTED)).
Proof.
  intros s w cbs f c.
  destruct s as [d h [ty k t ce p] [l rf to cb kn ct pt] st g x g' y].
  destruct w as [n m q tr].
  unfold start_refused. unfold_api. unfold_static. unfold_monad.
  destruct ty, cbs, f, st; cbn; tidy_world; reflexivity.
Qed.

(** X9. [authentication_stop] on an authenticated or authenticating record
    with a CBS-bearing credential, once the audience is built: it tells
    the observer of the change to [DEAUTHENTICATING] and submits exactly
    one delete request for the audience.  If the CBS client accepts it the
    call returns [RESULT_OK] with the stop callback stored; if not, it
    returns 650 with the stop callback cleared and the status [FAILED],
    the observer being told of that change too.  In neither case is the
    audience string released. *)
Theorem stop_submits_one_delete :
  forall (env : Env) (s : AUTHENTICATION_STATE) (w : World) (host dev : string)
         (on_stop_completed : callback) (context : context_ptr),
    cbs_bearing (type (credential s)) = true ->
    stoppable (status s) = true ->
    iot_hub_host_fqdn s = Some host ->
    device_id s = Some dev ->
    audience_built env w = true ->
    authentication_stop env (Some s) on_stop_completed context w
    = if cbs_submit env (cbs_submissions w) =? RESULT_OK
      then (RESULT_OK,
            Some (set_status (set_on_stop_completed s on_stop_completed context)
                    AUTHENTICATION_STATUS_DEAUTHENTICATING),
            later w 0 2 1
              (notify s (status s) AUTHENTICATION_STATUS_DEAUTHENTICATING
               ++ [Call_cbs_delete_token (cbs_handle (cbs_state s))
                     (Some (devices_path_text host dev)) (Some SAS_TOKEN_TYPE)]))
      else (650,
            Some (set_status (set_on_stop_completed s None NULL_context)
                    AUTHENTICATION_STATUS_FAILED),
            later w 0 2 1
              (notify s (status s) AUTHENTICATION_STATUS_DEAUTHENTICATING
               ++ [Call_cbs_delete_token (cbs_handle (cbs_state s))
                     (Some (devices_path_text host dev)) (Some SAS_TOKEN_TYPE)]
               ++ notify s AUTHENTICATION_STATUS_DEAUTHENTICATING
                    AUTHENTICATION_STATUS_FAILED)).
Proof.
  intros env s w host dev f c Hc Hs Hh Hd Ha.
  destruct s as [d h [ty k t ce p] [l rf to cb kn ct pt] st g x g' y].
  cbn in Hc, Hs, Hh, Hd. subst d h.
  unfold audience_built in Ha. apply andb_true_iff in Ha. destruct Ha as [A0 A1].
  unfold_api. unfold_static. unfold_monad.
  destruct ty; try discriminate Hc; destruct st; try discriminate Hs;
    destruct g;
    repeat progress (cbn -[create_devices_path];
                     rewrite ?create_devices_path_eq, ?A0, ?A1);
    destruct (cbs_submit env (cbs_submissions w) =? RESULT_OK); cbn;
    tidy_world; reflexivity.
Qed.

Lemma stop_submits_one_delete_witness :
  authentication_stop sample_env
    (Some (sample_state device_key_credential AUTHENTICATION_STATUS_AUTHENTICATED))
    (Some 2%nat) 9%nat initial_world
  = (RESULT_OK,
     Some (set_status
             (set_on_stop_completed
                (sample_state device_key_credential
                   AUTHENTICATION_STATUS_AUTHENTICATED)
                (Some 2%nat) 9%nat)
             AUTHENTICATION_STATUS_DEAUTHENTICATING),
     later initial_world 0 2 1
       [Call_on_status_changed 1 5%nat AUTHENTICATION_STATUS_AUTHENTICATED
          AUTHENTICATION_STATUS_DEAUTHENTICATING;
        Call_cbs_delete_token (Some 7%nat)
          (Some "hub.example.net/devices/dev1") (Some SAS_TOKEN_TYPE)]).
Proof.
  apply (stop_submits_one_delete sample_env
           (sample_state device_key_credential AUTHENTICATION_STATUS_AUTHENTICATED)
           initial_world "hub.example.net" "dev1" (Some 2%nat) 9%nat);
    reflexivity.
Defined.

(** ** Beyond the claims: completions and what stays fixed *)

Lemma stop_completions_app (a b : list Event) :
  stop_completions (a ++ b) = stop_completions a ++ stop_completions b.
Proof.
  induction a as [| e a IH]; [ reflexivity | ].
  destruct e; cbn; rewrite IH; reflexivity.
Qed.

(** X10. The completion of a delete request calls the stop callback, when
    there is one, exactly once -- with success for an OK result, with error
    otherwise -- before it tells the status observer of the change to
    [IDLE] (OK) or [FAILED] (otherwise), and it clears the callback: a
    second completion delivered afterwards calls no stop callback. *)
Theorem delete_completion_fires_the_stop_callback_once :
  forall (env : Env) (r r' : CBS_OPERATION_RESULT) (s : AUTHENTICATION_STATE) (w : World),
    trace (snd (perform env (Delete_token_complete r) s w))
    = trace w ++ stop_callback_call s (fst (delete_outcome r))
              ++ notify s (status s) (snd (delete_outcome r))
    /\ status (fst (perform env (Delete_token_complete r) s w))
       = snd (delete_outcome r)
    /\ on_stop_completed_callback (fst (perform env (Delete_token_complete r) s w))
       = None
    /\ stop_completions
         (trace (snd (perform env (Delete_token_complete r')
                        (fst (perform env (Delete_token_complete r) s w))
                        (snd (perform env (Delete_token_complete r) s w)))))
       = stop_completions (trace w)
         ++ stop_completions (stop_callback_call s (fst (delete_outcome r))).
Proof.
  intros env r r' s w.
  destruct s as [d h [ty k t ce p] [l rf to cb kn ct pt] st g x g' y].
  unfold perform, stop_callback_call, delete_outcome, notify.
  unfold_static. unfold_monad.
  destruct r, r', g, g', st; cbn;
    rewrite <- ?app_assoc, ?app_nil_r; cbn;
    repeat split; try reflexivity;
    rewrite ?stop_completions_app; cbn; rewrite ?app_nil_r; reflexivity.
Qed.

(** X11. No public operation and no completion writes the device id, the
    host name, the credential (type and strings), the three configured
    durations or the key name of a live record. *)
Theorem operations_keep_identity_and_configuration :
  forall (env : Env) (op : Operation) (s : AUTHENTICATION_STATE) (w : World),
    fixed_part (fst (perform env op s w)) = fixed_part s.
Proof.
  intros env op s w.
  destruct s as [d h [ty k t ce p] [l rf to cb kn ct pt] st g x g' y].
  destruct op as [cbs f c | r0 | f c | r0 n v | r | r];
    unfold perform, landed, fixed_part.
  - unfold_api. unfold_static. unfold_monad.
    destruct ty, cbs, f, st; reflexivity.
  - unfold_api. unfold_static. unfold_monad.
    destruct ty, st, d, h; crunch; flatten_record; reflexivity.
  - unfold_api. unfold_static. unfold_monad.
    destruct ty, st, d, h; crunch; flatten_record; reflexivity.
  - destruct n; reflexivity.
  - unfold_static. unfold_monad. destruct r, g, st; reflexivity.
  - unfold_static. unfold_monad. destruct r, g, g', st; reflexivity.
Qed.

(** ** Beyond the claims: create and destroy *)

(** What every live record returned by [authentication_create] holds. *)
Lemma created_record_fields :
  forall (env : Env) (block : AUTHENTICATION_STATE) (config : Config.t)
         (w w' : World) (s : AUTHENTICATION_STATE),
    authentication_create env block (Some config) w = (returns_handle s, w') ->
    device_id s = Config.device_id config
    /\ iot_hub_host_fqdn s = Config.iot_hub_host_fqdn config
    /\ type (credential s) = fst (configured_credential config)
    /\ stored_credential s = snd (configured_credential config)
    /\ sasTokenKeyName (cbs_state s) = Some ""
    /\ stored_credential s <> None
    /\ device_id s <> None
    /\ iot_hub_host_fqdn s <> None
    /\ trace w' = trace w.
Proof.
  intros env block [i h k t c p] w w' s. unfold configured_credential, stored_credential.
  unfold_create. unfold_monad.
  destruct i, h, k, t; cbn; repeat (split_innermost; cbn);
    intro E; try discriminate E; inversion E; subst; cbn; repeat split;
    try reflexivity; discriminate.
Qed.

(** With memory, a configuration that has device id, host name and a
    credential gives a live record. *)
Lemma create_with_memory_succeeds :
  forall (env : Env) (block : AUTHENTICATION_STATE) (config : Config.t)
         (id host secret : string) (w : World),
    Config.device_id config = Some id ->
    Config.iot_hub_host_fqdn config = Some host ->
    snd (configured_credential config) = Some secret ->
    (forall n, allocation env n = true) ->
    exists s w',
      authentication_create env block (Some config) w = (returns_handle s, w')
      /\ status s = AUTHENTICATION_STATUS_NONE
      /\ sas_token_lifetime (cbs_state s) = sas_token_lifetime (cbs_state block)
      /\ clock_reads w' = clock_reads w
      /\ cbs_submissions w' = cbs_submissions w.
Proof.
  intros env block [i h k t c p] id host secret w Hi Hh Hs Ha.
  unfold configured_credential in Hs. cbn in Hi, Hh, Hs. subst i h.
  unfold_create. unfold_monad.
  destruct t as [t | ]; cbn in Hs; subst; cbn; rewrite !Ha; cbn; rewrite !Ha; cbn;
    eexists; eexists; repeat split; reflexivity.
Qed.

(** X12. A handle that [authentication_create] returns holds the
    configuration: device id and host name are those of the configuration
    and not [NULL], and [authentication_get_credential_type] reports
    [DEVICE_SAS_TOKEN] with the configured token when the configuration has
    a SAS token, [DEVICE_KEY] with the configured key otherwise. *)
Theorem created_handle_holds_the_configuration :
  forall (env : Env) (block : AUTHENTICATION_STATE) (config : Config.t)
         (w w' : World) (s : AUTHENTICATION_STATE),
    authentication_create env block (Some config) w = (returns_handle s, w') ->
    device_id s = Config.device_id config
    /\ iot_hub_host_fqdn s = Config.iot_hub_host_fqdn config
    /\ authentication_get_credential_type (Some s)
       = (RESULT_OK, Some (fst (configured_credential config)))
    /\ stored_credential s = snd (configured_credential config)
    /\ stored_credential s <> None
    /\ device_id s <> None
    /\ iot_hub_host_fqdn s <> None.
Proof.
  intros env block config w w' s E.
  destruct (created_record_fields env block config w w' s E)
    as (H1 & H2 & H3 & H4 & H5 & H6 & H7 & H8 & H9).
  repeat split; try assumption.
  unfold authentication_get_credential_type. now rewrite H3.
Qed.

Lemma created_handle_holds_the_configuration_witness :
  device_id created_from_stale_block = Some "dev1"
  /\ iot_hub_host_fqdn created_from_stale_block = Some "hub.example.net"
  /\ authentication_get_credential_type (Some created_from_stale_block)
     = (RESULT_OK, Some CREDENTIAL_TYPE_DEVICE_KEY)
  /\ stored_credential created_from_stale_block = Some "KEY"
  /\ stored_credential created_from_stale_block <> None
  /\ device_id created_from_stale_block <> None
  /\ iot_hub_host_fqdn created_from_stale_block <> None.
Proof.
  apply (created_handle_holds_the_configuration sample_env stale_block
           (sample_config (Some "KEY") None) initial_world
           (later initial_world 0 5 0 []) created_from_stale_block).
  reflexivity.
Defined.

(** X13. Destroying a handle that [authentication_create] returned
    releases each of the four strings create copied -- device id, host
    name, the credential string and the empty key name -- exactly once,
    then the record, and nothing else; create itself releases nothing. *)
Theorem destroy_releases_what_create_copied :
  forall (env : Env) (block : AUTHENTICATION_STATE) (config : Config.t)
         (w w' : World) (s : AUTHENTICATION_STATE) (id host secret : string),
    authentication_create env block (Some config) w = (returns_handle s, w') ->
    Config.device_id config = Some id ->
    Config.iot_hub_host_fqdn config = Some host ->
    snd (configured_credential config) = Some secret ->
    trace (authentication_destroy (Some s) w')
    = trace w ++ [Call_STRING_delete id; Call_STRING_delete host;
                  Call_STRING_delete secret; Call_STRING_delete "";
                  Call_free_auth_state].
Proof.
  intros env block config w w' s id host secret E Hi Hh Hs.
  destruct (created_record_fields env block config w w' s E)
    as (H1 & H2 & H3 & H4 & H5 & H6 & H7 & H8 & H9).
  rewrite Hi in H1. rewrite Hh in H2. rewrite Hs in H4. rewrite <- H9.
  assert (Ht : cbs_bearing (type (credential s)) = true).
  { rewrite H3. unfold configured_credential.
    destruct (Config.device_sas_token config); reflexivity. }
  clear E H3 H6 H7 H8 H9 Hi Hh Hs.
  destruct s as [d h [ty k t ce p] [l rf to cb kn ct pt] st g x g' y].
  unfold stored_credential in H4. cbn in H1, H2, H4, H5, Ht. subst d h kn.
  unfold authentication_destroy. unfold_static. unfold_monad.
  destruct ty; try discriminate Ht; cbn in H4; subst; cbn;
    rewrite <- ?app_assoc; reflexivity.
Qed.

Lemma destroy_releases_what_create_copied_witness :
  trace (authentication_destroy (Some created_from_stale_block)
           (later initial_world 0 5 0 []))
  = trace initial_world
    ++ [Call_STRING_delete "dev1"; Call_STRING_delete "hub.example.net";
        Call_STRING_delete "KEY"; Call_STRING_delete "";
        Call_free_auth_state].
Proof.
  apply (destroy_releases_what_create_copied sample_env stale_block
           (sample_config (Some "KEY") None) initial_world
           (later initial_world 0 5 0 []) created_from_stale_block
           "dev1" "hub.example.net" "KEY");
    reflexivity.
Defined.

Lemma frees_app (a b : list Event) : frees (a ++ b) = (frees a + frees b)%nat.
Proof.
  induction a as [| e a IH]; [ reflexivity | ].
  destruct e; cbn; rewrite IH; reflexivity.
Qed.

(** X14. Once the state record has been allocated and the device id
    copied, a call of [authentication_create] ends in one of two ways: it
    returns a live record and has not released it, or it has released the
    record exactly once and returns the address of the released record.
    (When the copy of the device id fails, the cleanup reads
    [iot_hub_host_fqdn], which nothing has assigned yet; that path is left
    out here.) *)
Theorem create_failure_after_allocation :
  forall (env : Env) (block : AUTHENTICATION_STATE) (config : option Config.t)
         (w : World),
    record_never_allocated env config w = false ->
    device_id_copied env w = true ->
    match fst (authentication_create env block config w) with
    | returns_handle _ =>
        frees (trace (snd (authentication_create env block config w)))
        = frees (trace w)
    | returns_freed_pointer =>
        frees (trace (snd (authentication_create env block config w)))
        = S (frees (trace w))
    | _ => False
    end.
Proof.
  intros env block [[i h k t c p] | ] w H H1; [ | discriminate H ].
  unfold record_never_allocated in H. unfold device_id_copied in H1. cbn in H.
  destruct block as [bd bh [bty bk bt bce bp] [l rf to cb kn ct pt] st bg bx bg' by'].
  unfold_create. unfold_monad.
  destruct i, h; try discriminate H. apply negb_false_iff in H.
  cbn. rewrite H. cbn. rewrite H1. cbn.
  destruct k, t; cbn; repeat (split_innermost; cbn);
    rewrite ?frees_app; cbn; lia.
Qed.

Lemma create_failure_after_allocation_witness :
  record_never_allocated sample_env (Some (sample_config None None)) initial_world
    = false
  /\ device_id_copied sample_env initial_world = true
  /\ fst (authentication_create sample_env stale_block
            (Some (sample_config None None)) initial_world)
     = returns_freed_pointer
  /\ frees (trace (snd (authentication_create sample_env stale_block
                          (Some (sample_config None None)) initial_world)))
     = S (frees (trace initial_world)).
Proof.
  split; [ reflexivity | split; [ reflexivity | split; [ reflexivity | ] ] ].
  exact (create_failure_after_allocation sample_env stale_block
           (Some (sample_config None None)) initial_world eq_refl eq_refl).
Defined.

(** ** Beyond the claims: a whole session *)

(** X16. A whole DeviceKey session -- create, start, one tick, the put
    completes with OK, stop, the delete completes with OK, destroy -- with
    memory, a readable clock and a willing CBS client: the record ends in
    [IDLE] with no stop callback left, and what the outside sees is, in
    order, the four status changes up to [AUTHENTICATED] interleaved with
    one put of a token for the audience (token and audience released right
    after), the change to [DEAUTHENTICATING], one delete for the same
    audience, the stop callback with success, the change to [IDLE], and
    the release of device id, host name, key, key name and record. *)
Theorem device_key_session :
  forall (env : Env) (block : AUTHENTICATION_STATE) (config : Config.t)
         (id host key : string) (cbs f g : nat) (c d : context_ptr)
         (result0 now : Z) (w : World),
    Config.device_id config = Some id ->
    Config.iot_hub_host_fqdn config = Some host ->
    Config.device_key config = Some key ->
    Config.device_sas_token config = None ->
    (forall n, allocation env n = true) ->
    (forall n, cbs_submit env n = RESULT_OK) ->
    get_time env (clock_reads w) = Some now ->
    exists s w',
      session env block config (Some cbs) (Some f) c (Some g) d result0 w
        = Some (s, w')
      /\ status s = AUTHENTICATION_STATUS_IDLE
      /\ on_stop_completed_callback s = None
      /\ trace w'
         = trace w
           ++ [Call_on_status_changed f c AUTHENTICATION_STATUS_NONE
                 AUTHENTICATION_STATUS_STARTED;
               Call_on_status_changed f c AUTHENTICATION_STATUS_STARTED
                 AUTHENTICATION_STATUS_AUTHENTICATING;
               Call_cbs_put_token (Some cbs) (Some SAS_TOKEN_TYPE)
                 (Some (devices_path_text host id))
                 (Some (SASToken_text env key (devices_path_text host id) ""
                          (size_add now (sas_token_lifetime (cbs_state block) / 1000))));
               Call_STRING_delete
                 (SASToken_text env key (devices_path_text host id) ""
                    (size_add now (sas_token_lifetime (cbs_state block) / 1000)));
               Call_STRING_delete (devices_path_text host id);
               Call_on_status_changed f c AUTHENTICATION_STATUS_AUTHENTICATING
                 AUTHENTICATION_STATUS_AUTHENTICATED;
               Call_on_status_changed f c AUTHENTICATION_STATUS_AUTHENTICATED
                 AUTHENTICATION_STATUS_DEAUTHENTICATING;
               Call_cbs_delete_token (Some cbs)
                 (Some (devices_path_text host id)) (Some SAS_TOKEN_TYPE);
               Call_on_stop_completed g DELETE_SAS_TOKEN_RESULT_SUCCESS d;
               Call_on_status_changed f c AUTHENTICATION_STATUS_DEAUTHENTICATING
                 AUTHENTICATION_STATUS_IDLE;
               Call_STRING_delete id; Call_STRING_delete host;
               Call_STRING_delete key; Call_STRING_delete "";
               Call_free_auth_state].
Proof.
  intros env block config id host key cbs f g c d result0 now w
         Hi Hh Hk Ht Ha Hc Hn.
  assert (Hs : snd (configured_credential config) = Some key)
    by (unfold configured_credential; now rewrite Ht).
  destruct (create_with_memory_succeeds env block config id host key w Hi Hh Hs Ha)
    as (s0 & w0 & E & Hst & Hl & Hcl & _).
  destruct (created_record_fields env block config w w0 s0 E)
    as (H1 & H2 & H3 & H4 & H5 & _ & _ & _ & H9).
  unfold session. rewrite E. clear E.
  rewrite Hi in H1. rewrite Hh in H2. rewrite Hs in H4.
  unfold configured_credential in H3. rewrite Ht in H3. cbn in H3.
  rewrite <- Hl, <- H9. rewrite <- Hcl in Hn. clear Hl H9 Hcl Hs Hi Hh Hk Ht.
  destruct s0 as [bd bh [bty bk bt bce bp] [l rf to cb kn ct pt] st bg bx bg' by'].
  unfold stored_credential in H4.
  cbn [status cbs_state sas_token_lifetime device_id iot_hub_host_fqdn credential
       type sasTokenKeyName] in *.
  subst bd bh bty kn st. cbn in H4. subst bk.
  cbn [perform_all].
  do 5 (match goal with
        | |- context [perform ?e ?op ?s1 ?w1] =>
            let H := fresh "Step" in
            eassert (H : perform e op s1 w1 = _);
            [ unfold perform, landed; unfold_api; unfold_static; unfold_monad;
              repeat progress (cbn -[create_devices_path size_add];
                               rewrite ?create_devices_path_eq, ?Ha, ?Hc, ?Hn);
              flatten_record; cbn -[size_add]; reflexivity
            | rewrite H; clear H ]
        end).
  unfold authentication_destroy. unfold_static. unfold_monad.
  eexists; eexists; split; [ reflexivity | ]. cbn -[size_add].
  rewrite <- ?app_assoc. repeat split; reflexivity.
Qed.

Lemma device_key_session_witness :
  exists s w',
    session sample_env stale_block (sample_config (Some "KEY") None)
      (Some 7%nat) (Some 1%nat) 5%nat (Some 2%nat) 9%nat 0 initial_world
    = Some (s, w')
    /\ status s = AUTHENTICATION_STATUS_IDLE
    /\ on_stop_completed_callback s = None
    /\ trace w'
       = trace initial_world
         ++ [Call_on_status_changed 1 5%nat AUTHENTICATION_STATUS_NONE
               AUTHENTICATION_STATUS_STARTED;
             Call_on_status_changed 1 5%nat AUTHENTICATION_STATUS_STARTED
               AUTHENTICATION_STATUS_AUTHENTICATING;
             Call_cbs_put_token (Some 7%nat) (Some SAS_TOKEN_TYPE)
               (Some (devices_path_text "hub.example.net" "dev1"))
               (Some (SASToken_text sample_env "KEY"
                        (devices_path_text "hub.example.net" "dev1") ""
                        (size_add 100
                           (sas_token_lifetime (cbs_state stale_block) / 1000))));
             Call_STRING_delete
               (SASToken_text sample_env "KEY"
                  (devices_path_text "hub.example.net" "dev1") ""
                  (size_add 100 (sas_token_lifetime (cbs_state stale_block) / 1000)));
             Call_STRING_delete (devices_path_text "hub.example.net" "dev1");
             Call_on_status_changed 1 5%nat AUTHENTICATION_STATUS_AUTHENTICATING
               AUTHENTICATION_STATUS_AUTHENTICATED;
             Call_on_status_changed 1 5%nat AUTHENTICATION_STATUS_AUTHENTICATED
               AUTHENTICATION_STATUS_DEAUTHENTICATING;
             Call_cbs_delete_token (Some 7%nat)
               (Some (devices_path_text "hub.example.net" "dev1"))
               (Some SAS_TOKEN_TYPE);
             Call_on_stop_completed 2 DELETE_SAS_TOKEN_RESULT_SUCCESS 9%nat;
             Call_on_status_changed 1 5%nat AUTHENTICATION_STATUS_DEAUTHENTICATING
               AUTHENTICATION_STATUS_IDLE;
             Call_STRING_delete "dev1"; Call_STRING_delete "hub.example.net";
             Call_STRING_delete "KEY"; Call_STRING_delete "";
             Call_free_auth_state].
Proof.
  exact (device_key_session sample_env stale_block
           (sample_config (Some "KEY") None) "dev1" "hub.example.net" "KEY"
           7%nat 1%nat 2%nat 5%nat 9%nat 0 100 initial_world
           eq_refl eq_refl eq_refl eq_refl
           (fun _ => eq_refl) (fun _ => eq_refl) eq_refl).
Defined.
